(** * Rakbank POC Kafka webhook: a shallow embedding of [main.py]

    The service keeps every received transaction in one module-level list,
    [received_transactions], and serves six routes over it.  The embedding
    below follows [main.py] route by route:

    - a stored transaction is the Python dict built by the handler, a finite
      map from field names to Python values;
    - the handlers run in a small state-and-exception monad over the state of
      the process: the list, the readings of [datetime.now()] taken so far,
      and the lines handed to [logger];
    - the six JSON bodies returned by the handlers are records whose fields
      are the keys of the dict literals of the source. *)

From Stdlib Require Import Ascii String DecimalString.
From stdpp Require Import gmap strings list fin_maps.

Local Open Scope string_scope.

(** ** Python values held in the stored dicts *)

Inductive val :=
  | VNone
  | VInt (n : Z)
  | VStr (s : string).

#[global] Instance val_eq_dec : EqDecision val.
Proof. solve_decision. Defined.

#[global] Instance val_countable : Countable val.
Proof.
  refine (inj_countable'
    (fun v => match v with
              | VNone => inl ()
              | VInt n => inr (inl n)
              | VStr s => inr (inr s)
              end)
    (fun x => match x with
              | inl _ => VNone
              | inr (inl n) => VInt n
              | inr (inr s) => VStr s
              end) _).
  by intros [].
Defined.

(** Truth value of an object, as tested by [if x]. *)
Definition truthy (v : val) : bool :=
  match v with
  | VNone => false
  | VInt n => negb (n =? 0)%Z
  | VStr s => negb (String.eqb s "")
  end.

Definition str_of_nat (n : nat) : string :=
  NilEmpty.string_of_uint (Nat.to_uint n).

Definition str_of_N (n : N) : string :=
  NilEmpty.string_of_uint (N.to_uint n).

Definition str_of_Z (n : Z) : string :=
  NilZero.string_of_int (Z.to_int n).

(** [str(x)], as used by the f-strings of the log lines. *)
Definition py_str (v : val) : string :=
  match v with
  | VNone => "None"
  | VInt n => str_of_Z n
  | VStr s => s
  end.

Definition of_int (o : option Z) : val :=
  match o with Some n => VInt n | None => VNone end.

Definition of_str (o : option string) : val :=
  match o with Some s => VStr s | None => VNone end.

(** [d.get(k)]: the value under [k], [None] when the key is absent. *)
Definition dict_get (d : gmap string val) (k : string) : val :=
  default VNone (d !! k).

(** ** [datetime] and its two renderings *)

Record datetime := {
  year : N;
  month : N;
  day : N;
  hour : N;
  minute : N;
  second : N;
  microsecond : N
}.

Fixpoint zeros (k : nat) : string :=
  match k with
  | O => ""
  | S k' => String "0"%char (zeros k')
  end.

(** The C format [%0wd] on a natural number: left-filled with zeros up to
    [width], never truncated. *)
Definition zpad (width : nat) (n : N) : string :=
  let s := str_of_N n in
  zeros (width - String.length s) ++ s.

(** [datetime.isoformat()] of a naive datetime: the fraction is printed only
    when [microsecond] is not zero. *)
Definition isoformat (d : datetime) : string :=
  zpad 4 (year d) ++ "-" ++ zpad 2 (month d) ++ "-" ++ zpad 2 (day d) ++ "T"
  ++ zpad 2 (hour d) ++ ":" ++ zpad 2 (minute d) ++ ":" ++ zpad 2 (second d)
  ++ (if (microsecond d =? 0)%N then "" else "." ++ zpad 6 (microsecond d)).

(** [strftime("%Y%m%d_%H%M%S")].  [%Y] is the year with century; for the
    four-digit years of [wall_clock] below the zero fill plays no part. *)
Definition strftime_batch (d : datetime) : string :=
  zpad 4 (year d) ++ zpad 2 (month d) ++ zpad 2 (day d) ++ "_"
  ++ zpad 2 (hour d) ++ zpad 2 (minute d) ++ zpad 2 (second d).

(** A reading of the wall clock: a calendar date with a four-digit year and
    a time of day. *)
Definition wall_clock (d : datetime) : Prop :=
  (1000 <= year d <= 9999 /\ 1 <= month d <= 12 /\ 1 <= day d <= 31 /\
   hour d <= 23 /\ minute d <= 59 /\ second d <= 59 /\
   microsecond d <= 999999)%N.

Definition is_digit (c : ascii) : bool :=
  let n := nat_of_ascii c in ((48 <=? n) && (n <=? 57))%nat.

(** The shape [YYYYMMDD_HHMMSS]: eight digits, an underscore, six digits. *)
Definition is_YYYYMMDD_HHMMSS (s : string) : bool :=
  match list_ascii_of_string s with
  | [y1; y2; y3; y4; m1; m2; d1; d2; u; h1; h2; n1; n2; s1; s2] =>
      forallb is_digit [y1; y2; y3; y4; m1; m2; d1; d2; h1; h2; n1; n2; s1; s2]
      && Ascii.eqb u "_"%char
  | _ => false
  end.

(** ** The request model of line 23 *)

Record UserTransaction := {
  authorizer_usrnbr : option Z;
  creat_usrnbr : option Z;
  creat_time : option string;
  data : option string;
  usrname : option string
}.

(** [transaction.dict()] *)
Definition dict (t : UserTransaction) : gmap string val :=
  <["usrname" := of_str (usrname t)]>
  (<["data" := of_str (data t)]>
  (<["creat_time" := of_str (creat_time t)]>
  (<["creat_usrnbr" := of_int (creat_usrnbr t)]>
  (<["authorizer_usrnbr" := of_int (authorizer_usrnbr t)]> ∅)))).

(** ** Process state and the handler monad *)

Inductive level := INFO | ERROR.

Record World := {
  received_transactions : list (gmap string val);
  ticks : nat;
  logged : list (level * string)
}.

(** The process at start-up: line 31. *)
Definition initial : World :=
  {| received_transactions := []; ticks := 0; logged := [] |}.

Inductive exn :=
  | KeyError (key : string)
  | IndexError
  | RequestValidationError
  | HTTPException (status_code : nat) (detail : string).

(** [str(e)] *)
Definition str_exn (e : exn) : string :=
  match e with
  | KeyError k => "'" ++ k ++ "'"
  | IndexError => "list index out of range"
  | RequestValidationError => "validation error"
  | HTTPException c d => str_of_nat c ++ ": " ++ d
  end.

Definition M (A : Type) : Type := World -> (exn + A) * World.

Definition ret {A} (a : A) : M A := fun w => (inr a, w).

Definition raise {A} (e : exn) : M A := fun w => (inl e, w).

Definition bind {A B} (m : M A) (k : A -> M B) : M B :=
  fun w =>
    match m w with
    | (inl e, w') => (inl e, w')
    | (inr a, w') => k a w'
    end.

Notation "'let*' x ':=' m 'in' k" := (bind m (fun x => k))
  (at level 10, x name, m at level 100, k at level 200).

(** [try: body except Exception as e: handler(e)].  What [body] did to the
    state before it raised stays done. *)
Definition try_except {A} (body : M A) (handler : exn -> M A) : M A :=
  fun w =>
    match body w with
    | (inl e, w') => handler e w'
    | (inr a, w') => (inr a, w')
    end.

Definition get_received : M (list (gmap string val)) :=
  fun w => (inr (received_transactions w), w).

(** [received_transactions.append(d)] *)
Definition append (d : gmap string val) : M unit :=
  fun w => (inr tt,
            {| received_transactions := received_transactions w ++ [d];
               ticks := ticks w;
               logged := logged w |}).

Definition logger (l : level) (msg : string) : M unit :=
  fun w => (inr tt,
            {| received_transactions := received_transactions w;
               ticks := ticks w;
               logged := logged w ++ [(l, msg)] |}).

(** [d[k]] *)
Definition getitem (d : gmap string val) (k : string) : M val :=
  match d !! k with
  | Some v => ret v
  | None => raise (KeyError k)
  end.

(** [l[i]] on a list, negative indices counting from the end. *)
Definition list_getitem {A} (l : list A) (i : Z) : M A :=
  let j := if (i <? 0)%Z then (i + Z.of_nat (length l))%Z else i in
  if (j <? 0)%Z then raise IndexError
  else match l !! Z.to_nat j with
       | Some x => ret x
       | None => raise IndexError
       end.

(** [l[start:]] *)
Definition slice_from {A} (l : list A) (start : Z) : list A :=
  let n := Z.of_nat (length l) in
  let s := if (start <? 0)%Z then Z.max (start + n) 0 else Z.min start n in
  drop (Z.to_nat s) l.

(** ** The JSON bodies of the six routes *)

Module RootResponse.
Record service_info_t := {
  source : string;
  topic : string;
  purpose : string
}.
Record t := {
  message : string;
  status : string;
  timestamp : string;
  total_received : nat;
  service_info : service_info_t
}.
End RootResponse.

Module TransactionResponse.
Record t := {
  status : string;
  message : string;
  poc_id : val;
  user : option string;
  received_at : val
}.
End TransactionResponse.

Module ListResponse.
Record t := {
  total_count : nat;
  last_10_transactions : list (gmap string val);
  last_updated : string;
  poc_status : string
}.
End ListResponse.

Module BatchResponse.
Record t := {
  status : string;
  message : string;
  batch_id : string;
  total_received : nat
}.
End BatchResponse.

Module HealthResponse.
Record t := {
  status : string;
  timestamp : string;
  service : string;
  total_transactions : nat
}.
End HealthResponse.

Module StatsResponse.
Record waiting := {
  message : string;
  total_count : Z;
  status : string
}.
Record collecting := {
  total_transactions : nat;
  unique_users : nat;
  user_list : list val;
  first_transaction : val;
  last_transaction : val;
  poc_status : string
}.
Inductive t :=
  | Waiting (r : waiting)
  | Collecting (r : collecting).
End StatsResponse.

(** ** The handlers *)

Section Handlers.

(** The successive readings of [datetime.now()] over the life of the
    process: the [n]-th call returns [clock n]. *)
Variable clock : nat -> datetime.

Definition now : M datetime :=
  fun w => (inr (clock (ticks w)),
            {| received_transactions := received_transactions w;
               ticks := S (ticks w);
               logged := logged w |}).

(** [GET /], lines 33-45. *)
Definition root : M RootResponse.t :=
  let* t := now in
  let* rs := get_received in
  ret {| RootResponse.message :=
           "Rakbank POC Kafka User Transaction Webhook Service";
         RootResponse.status := "running";
         RootResponse.timestamp := isoformat t;
         RootResponse.total_received := length rs;
         RootResponse.service_info :=
           {| RootResponse.source := "Confluent Cloud Flink";
              RootResponse.topic := "user_trans_hst_avro";
              RootResponse.purpose := "POC webhook endpoint" |} |}.

(** [POST /webhook/user-transactions], lines 47-79. *)
Definition receive_user_transaction (transaction : UserTransaction)
  : M TransactionResponse.t :=
  try_except
    (let transaction_dict := dict transaction in
     let* t := now in
     let transaction_dict :=
       <["received_at" := VStr (isoformat t)]> transaction_dict in
     let* rs := get_received in
     let transaction_dict :=
       <["poc_id" := VInt (Z.of_nat (length rs) + 1)]> transaction_dict in
     let* _ := append transaction_dict in
     let* _ := logger INFO
       ("[RAKBANK POC] Transaction received - "
        ++ "User: " ++ py_str (of_str (usrname transaction)) ++ ", "
        ++ "Creator: " ++ py_str (of_int (creat_usrnbr transaction)) ++ ", "
        ++ "Data: " ++ py_str (of_str (data transaction)) ++ ", "
        ++ "Time: " ++ py_str (of_str (creat_time transaction))) in
     let* id := getitem transaction_dict "poc_id" in
     let* at_ := getitem transaction_dict "received_at" in
     ret {| TransactionResponse.status := "success";
            TransactionResponse.message :=
              "User transaction received successfully";
            TransactionResponse.poc_id := id;
            TransactionResponse.user := usrname transaction;
            TransactionResponse.received_at := at_ |})
    (fun e =>
       let* _ := logger ERROR
         ("[RAKBANK POC ERROR] Failed to process transaction: "
          ++ str_exn e) in
       raise (HTTPException 500
                ("Error processing transaction: " ++ str_exn e))).

(** [GET /webhook/user-transactions], lines 81-91. *)
Definition get_received_transactions : M ListResponse.t :=
  let* rs := get_received in
  let recent := if bool_decide (rs = []) then [] else slice_from rs (-10) in
  let* t := now in
  ret {| ListResponse.total_count := length rs;
         ListResponse.last_10_transactions := recent;
         ListResponse.last_updated := isoformat t;
         ListResponse.poc_status := "active" |}.

(** The [for] loop of lines 102-111, with [received_count] threaded. *)
Fixpoint batch_loop (batch_id : string) (transactions : list UserTransaction)
    (received_count : nat) : M nat :=
  match transactions with
  | [] => ret received_count
  | transaction :: rest =>
      let transaction_dict := dict transaction in
      let* t := now in
      let transaction_dict :=
        <["received_at" := VStr (isoformat t)]> transaction_dict in
      let transaction_dict :=
        <["batch_id" := VStr batch_id]> transaction_dict in
      let* rs := get_received in
      let transaction_dict :=
        <["poc_id" := VInt (Z.of_nat (length rs) + 1)]> transaction_dict in
      let* _ := append transaction_dict in
      let received_count := received_count + 1 in
      let* _ := logger INFO
        ("[RAKBANK POC BATCH] Transaction received - User: "
         ++ py_str (of_str (usrname transaction))) in
      batch_loop batch_id rest received_count
  end.

(** [POST /webhook/user-transactions/batch], lines 93-122. *)
Definition receive_batch_transactions (transactions : list UserTransaction)
  : M BatchResponse.t :=
  try_except
    (let received_count := 0 in
     let* t := now in
     let batch_id := strftime_batch t in
     let* received_count := batch_loop batch_id transactions received_count in
     let* rs := get_received in
     ret {| BatchResponse.status := "success";
            BatchResponse.message :=
              "Batch of " ++ str_of_nat received_count
              ++ " transactions received successfully";
            BatchResponse.batch_id := batch_id;
            BatchResponse.total_received := length rs |})
    (fun e =>
       let* _ := logger ERROR
         ("[RAKBANK POC ERROR] Failed to process batch: " ++ str_exn e) in
       raise (HTTPException 500 ("Error processing batch: " ++ str_exn e))).

(** [GET /health], lines 124-131. *)
Definition health_check : M HealthResponse.t :=
  let* t := now in
  let* rs := get_received in
  ret {| HealthResponse.status := "healthy";
         HealthResponse.timestamp := isoformat t;
         HealthResponse.service := "Rakbank POC Kafka Webhook";
         HealthResponse.total_transactions := length rs |}.

(** The comprehension of line 146. *)
Definition usernames (rs : list (gmap string val)) : list val :=
  filter (fun v => truthy v = true) (map (fun t => dict_get t "usrname") rs).

(** [x[i]["received_at"] if x else None], lines 153 and 154. *)
Definition received_at_of (rs : list (gmap string val)) (i : Z) : M val :=
  if bool_decide (rs = []) then ret VNone
  else let* t := list_getitem rs i in getitem t "received_at".

(** [GET /poc/stats], lines 133-156. *)
Definition poc_statistics : M StatsResponse.t :=
  let* rs := get_received in
  if bool_decide (rs = []) then
    ret (StatsResponse.Waiting
           {| StatsResponse.message := "No transactions received yet";
              StatsResponse.total_count := 0;
              StatsResponse.status := "waiting_for_data" |})
  else
    let users := usernames rs in
    let unique_users := elements (list_to_set users : gset val) in
    let* first := received_at_of rs 0 in
    let* last_ := received_at_of rs (-1) in
    ret (StatsResponse.Collecting
           {| StatsResponse.total_transactions := length rs;
              StatsResponse.unique_users := length unique_users;
              StatsResponse.user_list := unique_users;
              StatsResponse.first_transaction := first;
              StatsResponse.last_transaction := last_;
              StatsResponse.poc_status := "collecting_data" |}).

End Handlers.

(** ** Sequences of calls *)

(** Calls made one after the other, each on the state the previous one
    left. *)
Fixpoint run_all {A} (calls : list (M A)) (w : World)
  : list (exn + A) * World :=
  match calls with
  | [] => ([], w)
  | c :: rest =>
      let '(o, w1) := c w in
      let '(os, w2) := run_all rest w1 in
      (o :: os, w2)
  end.

Inductive request :=
  | GET_root
  | POST_user_transactions (transaction : UserTransaction)
  | GET_user_transactions
  | POST_user_transactions_batch (transactions : list UserTransaction)
  | GET_health
  | GET_poc_stats.

(** The state a request leaves behind. *)
Definition serve (clock : nat -> datetime) (r : request) (w : World) : World :=
  match r with
  | GET_root => (root clock w).2
  | POST_user_transactions t => (receive_user_transaction clock t w).2
  | GET_user_transactions => (get_received_transactions clock w).2
  | POST_user_transactions_batch ts => (receive_batch_transactions clock ts w).2
  | GET_health => (health_check clock w).2
  | GET_poc_stats => (poc_statistics w).2
  end.

Inductive reachable (clock : nat -> datetime) : World -> Prop :=
  | reachable_initial : reachable clock initial
  | reachable_serve w r :
      reachable clock w -> reachable clock (serve clock r w).

(** What every dict in the list looks like: the five fields of the request
    model with their declared types, the timestamp and a positive
    [poc_id]. *)
Definition TransactionRecord (d : gmap string val) : Prop :=
  (exists a, d !! "authorizer_usrnbr" = Some (of_int a)) /\
  (exists c, d !! "creat_usrnbr" = Some (of_int c)) /\
  (exists t, d !! "creat_time" = Some (of_str t)) /\
  (exists x, d !! "data" = Some (of_str x)) /\
  (exists u, d !! "usrname" = Some (of_str u)) /\
  (exists s, d !! "received_at" = Some (VStr s)) /\
  (exists n, d !! "poc_id" = Some (VInt n) /\ (0 < n)%Z).

(** The dict that a single ingest stores for [t], read at time [at_] when
    the list holds [before] records. *)
Definition stored (t : UserTransaction) (at_ : datetime) (before : nat)
  : gmap string val :=
  <["poc_id" := VInt (Z.of_nat before + 1)]>
  (<["received_at" := VStr (isoformat at_)]> (dict t)).

(** ** The request boundary

    A handler declared with a [UserTransaction] parameter is only entered
    with a body that validated against the model of line 23; otherwise the
    framework answers 422 itself. *)

#[local] Unset Elimination Schemes.
Inductive json :=
  | JNull
  | JBool (b : bool)
  | JNum (mantissa exponent : Z)
  | JStr (s : string)
  | JArr (items : list json)
  | JObj (members : list (string * json)).
#[local] Set Elimination Schemes.

(** The member named [k] of a parsed object; of two members with one name
    the later one stands. *)
Fixpoint member (ms : list (string * json)) (k : string) : option json :=
  match ms with
  | [] => None
  | (k', j) :: rest =>
      match member rest k with
      | Some j' => Some j'
      | None => if String.eqb k' k then Some j else None
      end
  end.

Section Boundary.

Variable clock : nat -> datetime.

(** The library's coercions into [int] and [str]. *)
Variable int_validator : json -> option Z.
Variable str_validator : json -> option string.

(** A field declared [Optional[T] = None]: absent and [null] give [None],
    anything else must validate as [T]. *)
Definition optional {A} (validator : json -> option A) (o : option json)
  : option (option A) :=
  match o with
  | None => Some None
  | Some JNull => Some None
  | Some j => Some <$> validator j
  end.

Definition validate (body : json) : option UserTransaction :=
  match body with
  | JObj ms =>
      a ← optional int_validator (member ms "authorizer_usrnbr");
      c ← optional int_validator (member ms "creat_usrnbr");
      t ← optional str_validator (member ms "creat_time");
      x ← optional str_validator (member ms "data");
      u ← optional str_validator (member ms "usrname");
      Some {| authorizer_usrnbr := a; creat_usrnbr := c; creat_time := t;
              data := x; usrname := u |}
  | _ => None
  end.

(** [POST /webhook/user-transactions] as the client sees it. *)
Definition post_user_transactions (body : json) : M TransactionResponse.t :=
  match validate body with
  | None => raise RequestValidationError
  | Some transaction => receive_user_transaction clock transaction
  end.

End Boundary.

(** Validators that accept exactly the JSON integers and the JSON strings. *)
Definition int_exact (j : json) : option Z :=
  match j with
  | JNum m 0 => Some m
  | _ => None
  end.

Definition str_exact (j : json) : option string :=
  match j with
  | JStr s => Some s
  | _ => None
  end.

(** ** Closed forms used by the proofs *)

(** The log line of lines 63-67. *)
Definition ingest_line (t : UserTransaction) : string :=
  "[RAKBANK POC] Transaction received - "
  ++ "User: " ++ py_str (of_str (usrname t)) ++ ", "
  ++ "Creator: " ++ py_str (of_int (creat_usrnbr t)) ++ ", "
  ++ "Data: " ++ py_str (of_str (data t)) ++ ", "
  ++ "Time: " ++ py_str (of_str (creat_time t)).

(** The response of the [i]-th of a run of single ingests that starts with
    [n] records in the list at clock reading [k]. *)
Definition ack (clock : nat -> datetime) (n k i : nat) (t : UserTransaction)
  : TransactionResponse.t :=
  {| TransactionResponse.status := "success";
     TransactionResponse.message := "User transaction received successfully";
     TransactionResponse.poc_id := VInt (Z.of_nat (n + i) + 1);
     TransactionResponse.user := usrname t;
     TransactionResponse.received_at := VStr (isoformat (clock (k + i))) |}.

(** The dict that the loop body stores for [t]. *)
Definition batch_stored (t : UserTransaction) (batch_id : string)
    (at_ : datetime) (before : nat) : gmap string val :=
  <["poc_id" := VInt (Z.of_nat before + 1)]>
  (<["batch_id" := VStr batch_id]>
  (<["received_at" := VStr (isoformat at_)]> (dict t))).

Definition batch_line (t : UserTransaction) : string :=
  "[RAKBANK POC BATCH] Transaction received - User: "
  ++ py_str (of_str (usrname t)).

(** ** Shapes of rendered numbers *)

Definition two_digits (s : string) : bool :=
  match s with
  | String a (String b EmptyString) => is_digit a && is_digit b
  | _ => false
  end.

Definition four_digits (s : string) : bool :=
  match s with
  | String a (String b (String c (String d EmptyString))) =>
      is_digit a && is_digit b && is_digit c && is_digit d
  | _ => false
  end.

Definition N_below (k : N) : list N := map N.of_nat (seq 0 (N.to_nat k)).

(** A computation that leaves the state of the process as it found it,
    whether it returns or raises. *)
Definition pure {A} (m : M A) : Prop := forall w, (m w).2 = w.

(** ** Sample data for the instances *)

Definition sample_clock (n : nat) : datetime :=
  {| year := 2025; month := 3; day := 7; hour := 9; minute := 5;
     second := N.of_nat n mod 60; microsecond := 0 |}.

Definition sample_tx (u : option string) : UserTransaction :=
  {| authorizer_usrnbr := Some 12%Z; creat_usrnbr := Some 7%Z;
     creat_time := Some "2025-03-07 09:00:00"; data := Some "payload";
     usrname := u |}.

(** The list after the five single ingests of the usernames
    ["a", "b", "a", None, "b"]. *)
Definition five_users : list UserTransaction :=
  map sample_tx [Some "a"; Some "b"; Some "a"; None; Some "b"].

Definition after_five_users : World :=
  (run_all (map (receive_user_transaction sample_clock) five_users) initial).2.

(** ** Runs of requests, key sets and timestamp shapes *)

(** The state after a run of requests, served in order. *)
Definition serve_all (clock : nat -> datetime) (rs : list request) (w : World)
  : World :=
  fold_left (fun w r => serve clock r w) rs w.

(** How many records a request hands to the service. *)
Definition posted (r : request) : nat :=
  match r with
  | POST_user_transactions _ => 1
  | POST_user_transactions_batch ts => length ts
  | _ => 0
  end.

(** The keys of the model of line 23. *)
Definition field_names : list string :=
  ["authorizer_usrnbr"; "creat_usrnbr"; "creat_time"; "data"; "usrname"].

(** The keys of a dict stored by the single route and by the batch route. *)
Definition single_keys : gset string :=
  list_to_set (field_names ++ ["received_at"; "poc_id"])%list.

Definition batch_keys : gset string :=
  list_to_set (field_names ++ ["received_at"; "batch_id"; "poc_id"])%list.

(** The shape [YYYY-MM-DDTHH:MM:SS], followed by nothing or by a fraction
    that starts with a dot. *)
Definition is_isoformat (s : string) : bool :=
  match list_ascii_of_string s with
  | y1 :: y2 :: y3 :: y4 :: h1 :: m1 :: m2 :: h2 :: d1 :: d2 :: t
    :: o1 :: o2 :: c1 :: n1 :: n2 :: c2 :: s1 :: s2 :: rest =>
      forallb is_digit [y1; y2; y3; y4; m1; m2; d1; d2; o1; o2; n1; n2; s1; s2]
      && forallb (Ascii.eqb "-"%char) [h1; h2]
      && Ascii.eqb t "T"%char
      && forallb (Ascii.eqb ":"%char) [c1; c2]
      && match rest with
         | [] => true
         | dot :: _ => Ascii.eqb dot "."%char
         end
  | _ => false
  end.

(** A run that mixes the six routes. *)
Definition mixed_run : list request :=
  [ GET_root;
    POST_user_transactions (sample_tx (Some "a"));
    POST_user_transactions_batch [sample_tx (Some "b"); sample_tx None];
    GET_poc_stats;
    GET_user_transactions;
    POST_user_transactions (sample_tx (Some "c"));
    GET_health ].

Definition after_mixed_run : World := serve_all sample_clock mixed_run initial.

Ltac lookup_through_inserts :=
  repeat (rewrite lookup_insert_ne by done); apply lookup_insert_eq.

(** * Properties *)

(** ** One single ingest *)

Section SingleIngest.

Variable clock : nat -> datetime.

(** The outcome of one call, in closed form: the body never raises, one
    dict is appended, one clock reading is consumed. *)
Lemma receive_user_transaction_run (t : UserTransaction) (w : World) :
  receive_user_transaction clock t w =
  (inr {| TransactionResponse.status := "success";
          TransactionResponse.message :=
            "User transaction received successfully";
          TransactionResponse.poc_id :=
            VInt (Z.of_nat (length (received_transactions w)) + 1);
          TransactionResponse.user := usrname t;
          TransactionResponse.received_at :=
            VStr (isoformat (clock (ticks w))) |},
   {| received_transactions :=
        received_transactions w
        ++ [stored t (clock (ticks w)) (length (received_transactions w))];
      ticks := S (ticks w);
      logged := logged w ++ [(INFO, ingest_line t)] |}).
Proof.
  unfold receive_user_transaction, try_except, bind, now, get_received,
    append, logger, getitem, stored, ingest_line; simpl.
  rewrite lookup_insert_eq; simpl.
  rewrite lookup_insert_ne by done.
  rewrite lookup_insert_eq; simpl.
  reflexivity.
Qed.

Lemma dict_lookup_poc_id (t : UserTransaction) : dict t !! "poc_id" = None.
Proof. unfold dict. by rewrite !lookup_insert_ne, lookup_empty. Qed.

Lemma dict_lookup_received_at (t : UserTransaction) :
  dict t !! "received_at" = None.
Proof. unfold dict. by rewrite !lookup_insert_ne, lookup_empty. Qed.

(** The stored dict keeps every field of the request as it was sent. *)
Lemma dict_subseteq_stored (t : UserTransaction) (at_ : datetime) (n : nat) :
  dict t ⊆ stored t at_ n.
Proof.
  unfold stored.
  etrans; [ | apply insert_subseteq ].
  - apply insert_subseteq, dict_lookup_received_at.
  - rewrite lookup_insert_ne by done. apply dict_lookup_poc_id.
Qed.

Lemma stored_poc_id (t : UserTransaction) (at_ : datetime) (n : nat) :
  stored t at_ n !! "poc_id" = Some (VInt (Z.of_nat n + 1)).
Proof. unfold stored. apply lookup_insert_eq. Qed.

Lemma stored_received_at (t : UserTransaction) (at_ : datetime) (n : nat) :
  stored t at_ n !! "received_at" = Some (VStr (isoformat at_)).
Proof.
  unfold stored. rewrite lookup_insert_ne by done. apply lookup_insert_eq.
Qed.

(** A run of single ingests, in closed form. *)
Lemma ingest_all_run (ts : list UserTransaction) (w : World) :
  run_all (map (receive_user_transaction clock) ts) w =
  (imap (fun i t => inr (ack clock (length (received_transactions w)) (ticks w) i t))
        ts,
   {| received_transactions :=
        received_transactions w
        ++ imap (fun i t => stored t (clock (ticks w + i))
                              (length (received_transactions w) + i)) ts;
      ticks := ticks w + length ts;
      logged := logged w ++ map (fun t => (INFO, ingest_line t)) ts |}).
Proof.
  revert w. induction ts as [|t ts IH]; intros w; simpl.
  - rewrite !app_nil_r, Nat.add_0_r. by destruct w.
  - rewrite receive_user_transaction_run, IH; simpl.
    rewrite length_app; simpl.
    f_equal.
    + unfold ack. rewrite !Nat.add_0_r. f_equal.
      apply imap_ext; intros i x _; simpl.
      replace (length (received_transactions w) + 1 + i)
        with (length (received_transactions w) + S i) by lia.
      by replace (S (ticks w + i)) with (ticks w + S i) by lia.
    + rewrite <- !app_assoc; simpl. rewrite !Nat.add_0_r.
      f_equal; [ | lia ].
      do 2 f_equal.
      apply imap_ext; intros i x _; simpl.
      replace (length (received_transactions w) + 1 + i)
        with (length (received_transactions w) + S i) by lia.
      by replace (S (ticks w + i)) with (ticks w + S i) by lia.
Qed.

End SingleIngest.

Lemma take_imap {A B} (f : nat -> A -> B) (l : list A) (n : nat) :
  take n (imap f l) = imap f (take n l).
Proof.
  revert f n. induction l as [|x l IH]; intros f [|n]; simpl; try done.
  by rewrite IH.
Qed.

(** ** Single ingest: numbering and order *)

(** C1. Sequential single ingests that start from an empty list: the call at
    position [k] of the run (counting from 0, so the [k+1]-th call) succeeds,
    returns [poc_id = k + 1] and stores a dict with that same [poc_id] at
    position [k]; the list held exactly [k] records when that call began, so
    the number is the count before the insert plus one. *)
Theorem poc_id_is_call_number (clock : nat -> datetime)
    (ts : list UserTransaction) (w : World) (k : nat) (t : UserTransaction) :
  received_transactions w = [] ->
  ts !! k = Some t ->
  let calls := map (receive_user_transaction clock) ts in
  exists r d,
    (run_all calls w).1 !! k = Some (inr r) /\
    TransactionResponse.poc_id r = VInt (Z.of_nat k + 1) /\
    received_transactions (run_all calls w).2 !! k = Some d /\
    d !! "poc_id" = Some (VInt (Z.of_nat k + 1)) /\
    length (received_transactions (run_all (take k calls) w).2) = k.
Proof.
  intros Hw Hk calls. subst calls.
  rewrite <- fmap_take, !ingest_all_run, Hw; simpl.
  exists (ack clock 0 (ticks w) k t),
         (stored t (clock (ticks w + k)) k).
  rewrite !list_lookup_imap, Hk; simpl.
  repeat split; try done; try apply stored_poc_id.
  rewrite length_imap, length_take. apply lookup_lt_Some in Hk. lia.
Qed.

Lemma poc_id_is_call_number_witness :
  received_transactions initial = [] /\
  [sample_tx (Some "a"); sample_tx None] !! 1 = Some (sample_tx None) /\
  let calls := map (receive_user_transaction sample_clock)
                   [sample_tx (Some "a"); sample_tx None] in
  exists r d,
    (run_all calls initial).1 !! 1 = Some (inr r) /\
    TransactionResponse.poc_id r = VInt (Z.of_nat 1 + 1) /\
    received_transactions (run_all calls initial).2 !! 1 = Some d /\
    d !! "poc_id" = Some (VInt (Z.of_nat 1 + 1)) /\
    length (received_transactions (run_all (take 1 calls) initial).2) = 1.
Proof.
  split; [reflexivity | split; [reflexivity | ]].
  apply (poc_id_is_call_number sample_clock
           [sample_tx (Some "a"); sample_tx None] initial 1 (sample_tx None));
    reflexivity.
Defined.

(** C5. [N] single ingests that start from an empty list all succeed and
    leave [N] records; the record at each position holds the fields of the
    call made at that position; and the list after the first [n] calls is
    the first [n] records of the final list, so every call adds one record
    at the end and touches none of the earlier ones. *)
Theorem ingest_appends_in_call_order (clock : nat -> datetime)
    (ts : list UserTransaction) (w : World) :
  received_transactions w = [] ->
  let run n := run_all (map (receive_user_transaction clock) (take n ts)) w in
  let final := run (length ts) in
  Forall2 (fun t o => exists r, o = inr r) ts final.1 /\
  length (received_transactions final.2) = length ts /\
  Forall2 (fun t d => dict t ⊆ d) ts (received_transactions final.2) /\
  forall n,
    received_transactions (run n).2 = take n (received_transactions final.2).
Proof.
  intros Hw run final. subst run final; simpl.
  rewrite firstn_all, ingest_all_run, Hw; simpl.
  split; [ | split; [ | split ] ].
  - apply Forall2_same_length_lookup. split; [ by rewrite length_imap | ].
    intros i t o Ht. rewrite list_lookup_imap, Ht; simpl.
    intros [= <-]. eauto.
  - by rewrite length_imap.
  - apply Forall2_same_length_lookup. split; [ by rewrite length_imap | ].
    intros i t d Ht. rewrite list_lookup_imap, Ht; simpl.
    intros [= <-]. apply dict_subseteq_stored.
  - intros n. rewrite ingest_all_run, Hw; simpl. by rewrite take_imap.
Qed.

Lemma ingest_appends_in_call_order_witness :
  received_transactions initial = [] /\
  let ts := [sample_tx (Some "a"); sample_tx None; sample_tx (Some "b")] in
  let run n :=
    run_all (map (receive_user_transaction sample_clock) (take n ts)) initial in
  let final := run (length ts) in
  Forall2 (fun t o => exists r, o = inr r) ts final.1 /\
  length (received_transactions final.2) = length ts /\
  Forall2 (fun t d => dict t ⊆ d) ts (received_transactions final.2) /\
  forall n,
    received_transactions (run n).2 = take n (received_transactions final.2).
Proof.
  split; [reflexivity | ].
  apply (ingest_appends_in_call_order sample_clock
           [sample_tx (Some "a"); sample_tx None; sample_tx (Some "b")]
           initial).
  reflexivity.
Defined.

(** ** Batch ingest *)

Section Batch.

Variable clock : nat -> datetime.

Lemma batch_stored_batch_id t batch_id at_ n :
  batch_stored t batch_id at_ n !! "batch_id" = Some (VStr batch_id).
Proof.
  unfold batch_stored. rewrite lookup_insert_ne by done.
  apply lookup_insert_eq.
Qed.

(** The loop in closed form: it runs to the end of the input, adds one to
    the counter and one dict to the list per element, and reads the clock
    once per element. *)
Lemma batch_loop_run (batch_id : string) (ts : list UserTransaction)
    (count : nat) (w : World) :
  batch_loop clock batch_id ts count w =
  (inr (count + length ts),
   {| received_transactions :=
        received_transactions w
        ++ imap (fun i t => batch_stored t batch_id (clock (ticks w + i))
                              (length (received_transactions w) + i)) ts;
      ticks := ticks w + length ts;
      logged := logged w ++ map (fun t => (INFO, batch_line t)) ts |}).
Proof.
  revert count w. induction ts as [|t ts IH]; intros count w; simpl.
  - rewrite !app_nil_r, !Nat.add_0_r. by destruct w.
  - unfold bind at 1, now at 1; simpl.
    unfold bind at 1, get_received at 1; simpl.
    unfold bind at 1, append at 1; simpl.
    unfold bind at 1, logger at 1; simpl.
    rewrite IH; simpl.
    rewrite length_app; simpl.
    rewrite <- !app_assoc; simpl. rewrite !Nat.add_0_r.
    f_equal; [ f_equal; lia | ].
    f_equal; [ | lia ].
    do 2 f_equal.
    apply imap_ext; intros i x _; simpl.
    replace (length (received_transactions w) + 1 + i)
      with (length (received_transactions w) + S i) by lia.
    by replace (S (ticks w + i)) with (ticks w + S i) by lia.
Qed.

(** The whole handler in closed form. *)
Lemma receive_batch_transactions_run (ts : list UserTransaction) (w : World) :
  receive_batch_transactions clock ts w =
  (inr {| BatchResponse.status := "success";
          BatchResponse.message :=
            "Batch of " ++ str_of_nat (length ts)
            ++ " transactions received successfully";
          BatchResponse.batch_id := strftime_batch (clock (ticks w));
          BatchResponse.total_received :=
            length (received_transactions w) + length ts |},
   {| received_transactions :=
        received_transactions w
        ++ imap (fun i t =>
                   batch_stored t (strftime_batch (clock (ticks w)))
                     (clock (S (ticks w) + i))
                     (length (received_transactions w) + i)) ts;
      ticks := S (ticks w) + length ts;
      logged := logged w ++ map (fun t => (INFO, batch_line t)) ts |}).
Proof.
  unfold receive_batch_transactions, try_except.
  unfold bind at 1, now at 1; simpl.
  unfold bind at 1. rewrite batch_loop_run; simpl.
  unfold bind, get_received, ret; simpl.
  by rewrite length_app, length_imap.
Qed.

End Batch.

(** ** The rendering [%Y%m%d_%H%M%S] *)

Lemma forallb_N_below (P : N -> bool) (k n : N) :
  forallb P (N_below k) = true -> (n < k)%N -> P n = true.
Proof.
  intros Hall Hn. rewrite forallb_forall in Hall. apply Hall.
  unfold N_below. apply in_map_iff. exists (N.to_nat n). split.
  - apply N2Nat.id.
  - apply in_seq. lia.
Qed.

Lemma zpad_2_digits (n : N) : (n < 100)%N -> two_digits (zpad 2 n) = true.
Proof.
  apply (forallb_N_below (fun n => two_digits (zpad 2 n)) 100 n).
  by vm_compute.
Qed.

Lemma zpad_4_digits (n : N) : (n < 10000)%N -> four_digits (zpad 4 n) = true.
Proof.
  apply (forallb_N_below (fun n => four_digits (zpad 4 n)) 10000 n).
  by vm_compute.
Qed.

Lemma strftime_batch_shape (d : datetime) :
  wall_clock d -> is_YYYYMMDD_HHMMSS (strftime_batch d) = true.
Proof.
  intros (Hy & Hm & Hd & Hh & Hmi & Hs & _).
  pose proof (zpad_4_digits (year d) ltac:(lia)) as Y.
  pose proof (zpad_2_digits (month d) ltac:(lia)) as Mo.
  pose proof (zpad_2_digits (day d) ltac:(lia)) as D.
  pose proof (zpad_2_digits (hour d) ltac:(lia)) as H.
  pose proof (zpad_2_digits (minute d) ltac:(lia)) as Mi.
  pose proof (zpad_2_digits (second d) ltac:(lia)) as S.
  unfold strftime_batch.
  destruct (zpad 4 (year d)) as [|y1 [|y2 [|y3 [|y4 [|]]]]]; try discriminate.
  destruct (zpad 2 (month d)) as [|m1 [|m2 [|]]]; try discriminate.
  destruct (zpad 2 (day d)) as [|d1 [|d2 [|]]]; try discriminate.
  destruct (zpad 2 (hour d)) as [|h1 [|h2 [|]]]; try discriminate.
  destruct (zpad 2 (minute d)) as [|n1 [|n2 [|]]]; try discriminate.
  destruct (zpad 2 (second d)) as [|s1 [|s2 [|]]]; try discriminate.
  simpl in *.
  repeat match goal with
         | H : _ && _ = true |- _ => apply andb_prop in H; destruct H
         end.
  unfold is_YYYYMMDD_HHMMSS; simpl.
  repeat match goal with
         | H : is_digit _ = true |- _ => rewrite H; clear H
         end.
  reflexivity.
Qed.

(** C2, as stated, fails: after one record is in the list, a batch of two
    answers [total_received = 3], not 2. *)
Lemma batch_total_received_not_batch_size :
  let w1 :=
    (receive_user_transaction sample_clock (sample_tx (Some "a")) initial).2 in
  let batch := [sample_tx (Some "b"); sample_tx None] in
  (receive_batch_transactions sample_clock batch w1).1 =
    inr {| BatchResponse.status := "success";
           BatchResponse.message :=
             "Batch of 2 transactions received successfully";
           BatchResponse.batch_id := "20250307_090501";
           BatchResponse.total_received := 3 |} /\
  3 <> length batch.
Proof. split; [ by vm_compute | simpl; lia ]. Qed.

(** C2, amended. Every batch ingest succeeds, and its [total_received] is the
    length of the whole list after the call: the count before the call plus
    the number of records of the request.  The number of records of the
    request itself is what the [message] carries. *)
Theorem batch_total_received_is_list_length (clock : nat -> datetime)
    (ts : list UserTransaction) (w : World) :
  exists r,
    (receive_batch_transactions clock ts w).1 = inr r /\
    BatchResponse.total_received r =
      length (received_transactions w) + length ts /\
    BatchResponse.total_received r =
      length (received_transactions (receive_batch_transactions clock ts w).2) /\
    BatchResponse.message r =
      "Batch of " ++ str_of_nat (length ts)
      ++ " transactions received successfully".
Proof.
  rewrite receive_batch_transactions_run; simpl.
  eexists; split; [ reflexivity | ]; simpl.
  by rewrite length_app, length_imap.
Qed.

(** C3. A batch ingest reads the clock once for its [batch_id]; when that
    reading is a wall-clock time the call succeeds, the records it appends
    (one per input record, after the records already there) all carry that
    one string under ["batch_id"], the response returns the same string, and
    the string has the shape YYYYMMDD_HHMMSS. *)
Theorem batch_shares_one_batch_id (clock : nat -> datetime)
    (ts : list UserTransaction) (w : World) :
  wall_clock (clock (ticks w)) ->
  exists r new,
    (receive_batch_transactions clock ts w).1 = inr r /\
    received_transactions (receive_batch_transactions clock ts w).2 =
      (received_transactions w ++ new)%list /\
    length new = length ts /\
    Forall (fun d => d !! "batch_id" = Some (VStr (BatchResponse.batch_id r)))
           new /\
    BatchResponse.batch_id r = strftime_batch (clock (ticks w)) /\
    is_YYYYMMDD_HHMMSS (BatchResponse.batch_id r) = true.
Proof.
  intros Hclock. rewrite receive_batch_transactions_run; simpl.
  eexists; eexists.
  split; [ reflexivity | ]; simpl.
  split; [ reflexivity | ].
  split; [ by rewrite length_imap | ].
  split; [ | split; [ reflexivity | by apply strftime_batch_shape ] ].
  apply Forall_lookup. intros i d.
  rewrite list_lookup_imap.
  destruct (ts !! i) as [t|]; simpl; [ | done ].
  intros [= <-]. apply batch_stored_batch_id.
Qed.

Lemma batch_shares_one_batch_id_witness :
  wall_clock (sample_clock (ticks initial)) /\
  exists r new,
    (receive_batch_transactions sample_clock
       [sample_tx (Some "a"); sample_tx None] initial).1 = inr r /\
    received_transactions
      (receive_batch_transactions sample_clock
         [sample_tx (Some "a"); sample_tx None] initial).2 =
      (received_transactions initial ++ new)%list /\
    length new = length [sample_tx (Some "a"); sample_tx None] /\
    Forall (fun d => d !! "batch_id" = Some (VStr (BatchResponse.batch_id r)))
           new /\
    BatchResponse.batch_id r = strftime_batch (sample_clock (ticks initial)) /\
    is_YYYYMMDD_HHMMSS (BatchResponse.batch_id r) = true.
Proof.
  split.
  - repeat split; by vm_compute.
  - apply (batch_shares_one_batch_id sample_clock
             [sample_tx (Some "a"); sample_tx None] initial).
    repeat split; by vm_compute.
Defined.

(** ** The read-only routes *)

Lemma pure_ret {A} (a : A) : pure (ret a).
Proof. by intros w. Qed.

Lemma pure_raise {A} (e : exn) : pure (raise (A := A) e).
Proof. by intros w. Qed.

Lemma pure_bind {A B} (m : M A) (k : A -> M B) :
  pure m -> (forall a, pure (k a)) -> pure (bind m k).
Proof.
  intros Hm Hk w. unfold bind. specialize (Hm w).
  destruct (m w) as [[e|a] w1]; simpl in *; subst; [ done | apply Hk ].
Qed.

Lemma pure_get_received : pure get_received.
Proof. by intros w. Qed.

Lemma pure_getitem (d : gmap string val) (k : string) : pure (getitem d k).
Proof. unfold getitem. destruct (d !! k); [ apply pure_ret | apply pure_raise ]. Qed.

Lemma pure_list_getitem {A} (l : list A) (i : Z) : pure (list_getitem l i).
Proof.
  unfold list_getitem.
  destruct (_ <? 0)%Z; [ apply pure_raise | ].
  destruct (l !! _); [ apply pure_ret | apply pure_raise ].
Qed.

Lemma pure_received_at_of (rs : list (gmap string val)) (i : Z) :
  pure (received_at_of rs i).
Proof.
  unfold received_at_of. case_bool_decide; [ apply pure_ret | ].
  apply pure_bind; [ apply pure_list_getitem | intros; apply pure_getitem ].
Qed.

Lemma pure_poc_statistics : pure poc_statistics.
Proof.
  unfold poc_statistics.
  apply pure_bind; [ apply pure_get_received | intros rs ].
  case_bool_decide; [ apply pure_ret | ].
  apply pure_bind; [ apply pure_received_at_of | intros first ].
  apply pure_bind; [ apply pure_received_at_of | intros last_ ].
  apply pure_ret.
Qed.

Section ReadOnly.

Variable clock : nat -> datetime.

Lemma root_run (w : World) :
  root clock w =
  (inr {| RootResponse.message :=
            "Rakbank POC Kafka User Transaction Webhook Service";
          RootResponse.status := "running";
          RootResponse.timestamp := isoformat (clock (ticks w));
          RootResponse.total_received := length (received_transactions w);
          RootResponse.service_info :=
            {| RootResponse.source := "Confluent Cloud Flink";
               RootResponse.topic := "user_trans_hst_avro";
               RootResponse.purpose := "POC webhook endpoint" |} |},
   {| received_transactions := received_transactions w;
      ticks := S (ticks w);
      logged := logged w |}).
Proof. reflexivity. Qed.

Lemma health_check_run (w : World) :
  health_check clock w =
  (inr {| HealthResponse.status := "healthy";
          HealthResponse.timestamp := isoformat (clock (ticks w));
          HealthResponse.service := "Rakbank POC Kafka Webhook";
          HealthResponse.total_transactions :=
            length (received_transactions w) |},
   {| received_transactions := received_transactions w;
      ticks := S (ticks w);
      logged := logged w |}).
Proof. reflexivity. Qed.

Lemma get_received_transactions_run (w : World) :
  get_received_transactions clock w =
  (inr {| ListResponse.total_count := length (received_transactions w);
          ListResponse.last_10_transactions :=
            if bool_decide (received_transactions w = []) then []
            else slice_from (received_transactions w) (-10);
          ListResponse.last_updated := isoformat (clock (ticks w));
          ListResponse.poc_status := "active" |},
   {| received_transactions := received_transactions w;
      ticks := S (ticks w);
      logged := logged w |}).
Proof. reflexivity. Qed.

End ReadOnly.

(** [l[-10:]] is [l] without its first [len(l) - 10] elements. *)
Lemma slice_from_last_10 {A} (l : list A) :
  slice_from l (-10) = drop (length l - 10) l.
Proof.
  unfold slice_from; simpl. f_equal. lia.
Qed.

(** C4. List-recent always succeeds; [total_count] is the length of the list;
    [last_10_transactions] has [min total_count 10] elements and is the list
    without its first [total_count - 10] records, hence its most recent
    records in the order they were appended (and empty for an empty list). *)
Theorem list_recent_is_last_10 (clock : nat -> datetime) (w : World) :
  exists r,
    (get_received_transactions clock w).1 = inr r /\
    ListResponse.total_count r = length (received_transactions w) /\
    length (ListResponse.last_10_transactions r)
      = Nat.min (ListResponse.total_count r) 10 /\
    ListResponse.last_10_transactions r
      = drop (length (received_transactions w) - 10) (received_transactions w) /\
    ListResponse.last_10_transactions r `suffix_of` received_transactions w.
Proof.
  rewrite get_received_transactions_run; simpl.
  eexists; split; [ reflexivity | ]; simpl.
  assert ((if bool_decide (received_transactions w = []) then []
           else slice_from (received_transactions w) (-10))
          = drop (length (received_transactions w) - 10)
                 (received_transactions w)) as ->.
  { case_bool_decide as Hnil; [ by rewrite Hnil | apply slice_from_last_10 ]. }
  split; [ done | ].
  split; [ rewrite length_drop; lia | ].
  split; [ done | apply suffix_drop ].
Qed.

(** C10. Root, list-recent, health check and statistics leave the list as it
    was, whatever it holds. *)
Theorem read_only_routes_keep_the_list (clock : nat -> datetime) (w : World) :
  received_transactions (root clock w).2 = received_transactions w /\
  received_transactions (get_received_transactions clock w).2
    = received_transactions w /\
  received_transactions (health_check clock w).2 = received_transactions w /\
  received_transactions (poc_statistics w).2 = received_transactions w.
Proof.
  repeat split; try reflexivity.
  by rewrite pure_poc_statistics.
Qed.

(** ** Statistics *)

(** C8. On an empty list the statistics route answers the
    ["waiting_for_data"] body with [total_count = 0], and nothing else. *)
Theorem stats_on_empty_list_waits (w : World) :
  received_transactions w = [] ->
  (poc_statistics w).1 =
    inr (StatsResponse.Waiting
           {| StatsResponse.message := "No transactions received yet";
              StatsResponse.total_count := 0;
              StatsResponse.status := "waiting_for_data" |}).
Proof.
  intros Hw. unfold poc_statistics, bind, get_received; simpl.
  by rewrite Hw.
Qed.

Lemma stats_on_empty_list_waits_witness :
  received_transactions initial = [] /\
  (poc_statistics initial).1 =
    inr (StatsResponse.Waiting
           {| StatsResponse.message := "No transactions received yet";
              StatsResponse.total_count := 0;
              StatsResponse.status := "waiting_for_data" |}).
Proof.
  split; [ reflexivity | ].
  apply (stats_on_empty_list_waits initial). reflexivity.
Defined.

Lemma received_at_of_first (d : gmap string val) (rs : list (gmap string val))
    (v : val) (w : World) :
  d !! "received_at" = Some v ->
  received_at_of (d :: rs) 0 w = (inr v, w).
Proof.
  intros Hd. unfold received_at_of, bind, list_getitem, getitem; simpl.
  by rewrite Hd.
Qed.

Lemma received_at_of_last (d : gmap string val) (rs : list (gmap string val))
    (v : val) (w : World) :
  last rs = Some d ->
  d !! "received_at" = Some v ->
  received_at_of rs (-1) w = (inr v, w).
Proof.
  intros Hlast Hd. unfold received_at_of.
  case_bool_decide as Hnil; [ by subst rs | ].
  unfold bind, list_getitem, getitem; simpl.
  assert (0 < length rs) by (destruct rs; [ done | simpl; lia ]).
  destruct (_ <? 0)%Z eqn:Hneg; [ lia | ].
  replace (Z.to_nat (-1 + Z.of_nat (length rs))) with (pred (length rs)) by lia.
  rewrite <- last_lookup, Hlast; simpl.
  by rewrite Hd.
Qed.

(** The statistics route on a list whose first and last dict carry a
    timestamp, in closed form. *)
Lemma poc_statistics_run (w : World) (d0 dn : gmap string val) (v0 vn : val) :
  head (received_transactions w) = Some d0 ->
  last (received_transactions w) = Some dn ->
  d0 !! "received_at" = Some v0 ->
  dn !! "received_at" = Some vn ->
  poc_statistics w =
  (inr (StatsResponse.Collecting
          {| StatsResponse.total_transactions :=
               length (received_transactions w);
             StatsResponse.unique_users :=
               length (elements (list_to_set
                 (usernames (received_transactions w)) : gset val));
             StatsResponse.user_list :=
               elements (list_to_set
                 (usernames (received_transactions w)) : gset val);
             StatsResponse.first_transaction := v0;
             StatsResponse.last_transaction := vn;
             StatsResponse.poc_status := "collecting_data" |}),
   w).
Proof.
  intros Hhead Hlast H0 Hn.
  unfold poc_statistics. unfold bind at 1, get_received at 1; simpl.
  destruct (received_transactions w) as [|d rs] eqn:Hrs; [ done | ].
  simpl in Hhead. injection Hhead as ->.
  rewrite bool_decide_eq_false_2 by done.
  unfold bind at 1. rewrite (received_at_of_first _ _ _ _ H0).
  unfold bind at 1. rewrite (received_at_of_last _ _ _ _ Hlast Hn).
  reflexivity.
Qed.

Lemma TransactionRecord_received_at (d : gmap string val) :
  TransactionRecord d -> exists s, d !! "received_at" = Some (VStr s).
Proof. by intros (_ & _ & _ & _ & _ & H & _). Qed.

Lemma TransactionRecord_usrname (d : gmap string val) :
  TransactionRecord d -> exists u, d !! "usrname" = Some (of_str u).
Proof. by intros (_ & _ & _ & _ & H & _). Qed.

(** A non-empty list of transaction records has a first and a last record,
    each with a timestamp. *)
Lemma records_first_and_last (rs : list (gmap string val)) :
  Forall TransactionRecord rs ->
  rs <> [] ->
  exists d0 dn s0 sn,
    head rs = Some d0 /\ last rs = Some dn /\
    d0 !! "received_at" = Some (VStr s0) /\
    dn !! "received_at" = Some (VStr sn).
Proof.
  intros Hwf Hne.
  destruct (head rs) as [d0|] eqn:Hhead; [ | by apply head_None in Hhead ].
  destruct (last rs) as [dn|] eqn:Hlast; [ | by apply last_None in Hlast ].
  rewrite Forall_forall in Hwf.
  destruct (TransactionRecord_received_at d0) as [s0 H0].
  { apply Hwf. rewrite head_lookup in Hhead. by eapply list_elem_of_lookup_2. }
  destruct (TransactionRecord_received_at dn) as [sn Hn].
  { apply Hwf. rewrite last_lookup in Hlast. by eapply list_elem_of_lookup_2. }
  by exists d0, dn, s0, sn.
Qed.

(** C9. On a non-empty list of transaction records the statistics route
    succeeds with the normal body; its [first_transaction] is the
    ["received_at"] of the first record of the list and its
    [last_transaction] the ["received_at"] of the last one. *)
Theorem stats_first_and_last (w : World) :
  Forall TransactionRecord (received_transactions w) ->
  received_transactions w <> [] ->
  exists r d0 dn,
    (poc_statistics w).1 = inr (StatsResponse.Collecting r) /\
    head (received_transactions w) = Some d0 /\
    last (received_transactions w) = Some dn /\
    d0 !! "received_at" = Some (StatsResponse.first_transaction r) /\
    dn !! "received_at" = Some (StatsResponse.last_transaction r).
Proof.
  intros Hwf Hne.
  destruct (records_first_and_last _ Hwf Hne)
    as (d0 & dn & s0 & sn & Hhead & Hlast & H0 & Hn).
  rewrite (poc_statistics_run w d0 dn _ _ Hhead Hlast H0 Hn); simpl.
  eexists; exists d0, dn. split; [ reflexivity | ]. simpl. done.
Qed.

(** ** The shape of the stored dicts is an invariant of the service *)

Lemma stored_TransactionRecord (t : UserTransaction) (at_ : datetime) (n : nat) :
  TransactionRecord (stored t at_ n).
Proof.
  unfold TransactionRecord, stored, dict.
  split; [ exists (authorizer_usrnbr t); lookup_through_inserts | ].
  split; [ exists (creat_usrnbr t); lookup_through_inserts | ].
  split; [ exists (creat_time t); lookup_through_inserts | ].
  split; [ exists (data t); lookup_through_inserts | ].
  split; [ exists (usrname t); lookup_through_inserts | ].
  split; [ eexists; lookup_through_inserts | ].
  exists (Z.of_nat n + 1)%Z. split; [ lookup_through_inserts | lia ].
Qed.

Lemma batch_stored_TransactionRecord (t : UserTransaction) (b : string)
    (at_ : datetime) (n : nat) :
  TransactionRecord (batch_stored t b at_ n).
Proof.
  unfold TransactionRecord, batch_stored, dict.
  split; [ exists (authorizer_usrnbr t); lookup_through_inserts | ].
  split; [ exists (creat_usrnbr t); lookup_through_inserts | ].
  split; [ exists (creat_time t); lookup_through_inserts | ].
  split; [ exists (data t); lookup_through_inserts | ].
  split; [ exists (usrname t); lookup_through_inserts | ].
  split; [ eexists; lookup_through_inserts | ].
  exists (Z.of_nat n + 1)%Z. split; [ lookup_through_inserts | lia ].
Qed.

Lemma Forall_imap {A B} (P : B -> Prop) (f : nat -> A -> B) (l : list A) :
  (forall i x, P (f i x)) -> Forall P (imap f l).
Proof.
  intros Hf. apply Forall_lookup. intros i y.
  rewrite list_lookup_imap. destruct (l !! i); simpl; [ | done ].
  intros [= <-]. apply Hf.
Qed.

Lemma serve_keeps_records (clock : nat -> datetime) (r : request) (w : World) :
  Forall TransactionRecord (received_transactions w) ->
  Forall TransactionRecord (received_transactions (serve clock r w)).
Proof.
  intros Hw. destruct r as [ | t | | ts | | ]; simpl;
    rewrite ?root_run, ?get_received_transactions_run, ?health_check_run;
    try done.
  - rewrite receive_user_transaction_run; simpl.
    apply Forall_app. split; [ done | ].
    apply Forall_singleton, stored_TransactionRecord.
  - rewrite receive_batch_transactions_run; simpl.
    apply Forall_app. split; [ done | ].
    apply Forall_imap. intros. apply batch_stored_TransactionRecord.
  - by rewrite pure_poc_statistics.
Qed.

(** Whatever requests the process has served, its list holds transaction
    records only. *)
Lemma reachable_records (clock : nat -> datetime) (w : World) :
  reachable clock w -> Forall TransactionRecord (received_transactions w).
Proof.
  induction 1 as [ | w r _ IH ]; [ constructor | ].
  by apply serve_keeps_records.
Qed.

Lemma ingest_all_length (clock : nat -> datetime) (ts : list UserTransaction)
    (w : World) :
  length (received_transactions
            (run_all (map (receive_user_transaction clock) ts) w).2)
  = length (received_transactions w) + length ts.
Proof. rewrite ingest_all_run; simpl. by rewrite length_app, length_imap. Qed.

Lemma after_five_users_records :
  Forall TransactionRecord (received_transactions after_five_users).
Proof.
  unfold after_five_users. rewrite ingest_all_run.
  apply Forall_app. split; [ constructor | ].
  apply Forall_imap. intros. apply stored_TransactionRecord.
Qed.

Lemma after_five_users_nonempty : received_transactions after_five_users <> [].
Proof.
  intros H.
  pose proof (ingest_all_length sample_clock five_users initial) as L.
  fold after_five_users in L. rewrite H in L. discriminate L.
Qed.

Lemma stats_first_and_last_witness :
  Forall TransactionRecord (received_transactions after_five_users) /\
  received_transactions after_five_users <> [] /\
  exists r d0 dn,
    (poc_statistics after_five_users).1 = inr (StatsResponse.Collecting r) /\
    head (received_transactions after_five_users) = Some d0 /\
    last (received_transactions after_five_users) = Some dn /\
    d0 !! "received_at" = Some (StatsResponse.first_transaction r) /\
    dn !! "received_at" = Some (StatsResponse.last_transaction r).
Proof.
  split; [ apply after_five_users_records | ].
  split; [ apply after_five_users_nonempty | ].
  apply (stats_first_and_last after_five_users).
  - apply after_five_users_records.
  - apply after_five_users_nonempty.
Defined.

(** What line 146 collects: the usernames that are strings and not empty. *)
Lemma elem_of_usernames (rs : list (gmap string val)) (v : val) :
  Forall TransactionRecord rs ->
  v ∈ usernames rs <->
  exists s, v = VStr s /\ s <> "" /\
            exists d, d ∈ rs /\ d !! "usrname" = Some (VStr s).
Proof.
  intros Hwf. unfold usernames.
  rewrite list_elem_of_filter.
  change (map (fun t => dict_get t "usrname") rs)
    with ((fun t => dict_get t "usrname") <$> rs).
  rewrite list_elem_of_fmap. split.
  - intros (Htrue & d & -> & Hd).
    rewrite Forall_forall in Hwf.
    destruct (TransactionRecord_usrname d (Hwf d Hd)) as [[s|] Hu];
      unfold dict_get in *; rewrite Hu in *; simpl in *; [ | done ].
    exists s. split; [ done | ]. split; [ | by exists d ].
    intros ->. done.
  - intros (s & -> & Hs & d & Hd & Hu).
    split.
    + simpl. apply negb_true_iff, String.eqb_neq. done.
    + exists d. split; [ | done ]. unfold dict_get. by rewrite Hu.
Qed.

(** C7. On a non-empty list of transaction records the statistics route
    succeeds with the normal body; [user_list] has no repetition, holds
    exactly the non-empty strings found under ["usrname"] in the list, and
    [unique_users] is its length.  When the usernames in the list are
    ["a", "b", "a", None, "b"], [unique_users] is 2 and [user_list], as a
    set, is {"a", "b"}. *)
Theorem stats_distinct_users (w : World) :
  Forall TransactionRecord (received_transactions w) ->
  received_transactions w <> [] ->
  exists r,
    (poc_statistics w).1 = inr (StatsResponse.Collecting r) /\
    NoDup (StatsResponse.user_list r) /\
    StatsResponse.unique_users r = length (StatsResponse.user_list r) /\
    (forall v,
       v ∈ StatsResponse.user_list r <->
       exists s, v = VStr s /\ s <> "" /\
                 exists d, d ∈ received_transactions w /\
                           d !! "usrname" = Some (VStr s)) /\
    (map (fun d => dict_get d "usrname") (received_transactions w)
       = [VStr "a"; VStr "b"; VStr "a"; VNone; VStr "b"] ->
     StatsResponse.unique_users r = 2 /\
     list_to_set (StatsResponse.user_list r)
       = ({[ VStr "a"; VStr "b" ]} : gset val)).
Proof.
  intros Hwf Hne.
  destruct (records_first_and_last _ Hwf Hne)
    as (d0 & dn & s0 & sn & Hhead & Hlast & H0 & Hn).
  rewrite (poc_statistics_run w d0 dn _ _ Hhead Hlast H0 Hn); simpl.
  eexists. split; [ reflexivity | ]. simpl.
  split; [ apply NoDup_elements | ].
  split; [ reflexivity | ].
  split.
  - intros v. rewrite elem_of_elements, elem_of_list_to_set.
    by apply elem_of_usernames.
  - intros Hsample. unfold usernames. rewrite Hsample.
    split; by vm_compute.
Qed.

Lemma after_five_users_usernames :
  map (fun d => dict_get d "usrname") (received_transactions after_five_users)
  = [VStr "a"; VStr "b"; VStr "a"; VNone; VStr "b"].
Proof. by vm_compute. Qed.

Lemma stats_distinct_users_witness :
  Forall TransactionRecord (received_transactions after_five_users) /\
  received_transactions after_five_users <> [] /\
  exists r,
    (poc_statistics after_five_users).1 = inr (StatsResponse.Collecting r) /\
    NoDup (StatsResponse.user_list r) /\
    StatsResponse.unique_users r = 2 /\
    list_to_set (StatsResponse.user_list r)
      = ({[ VStr "a"; VStr "b" ]} : gset val).
Proof.
  split; [ apply after_five_users_records | ].
  split; [ apply after_five_users_nonempty | ].
  destruct (stats_distinct_users after_five_users
              after_five_users_records after_five_users_nonempty)
    as (r & Hr & Hnodup & _ & _ & Hsample).
  destruct (Hsample after_five_users_usernames) as [Hcount Hset].
  exists r.
  split; [ exact Hr | ]. split; [ exact Hnodup | ].
  split; [ exact Hcount | exact Hset ].
Defined.

(** ** The scenarios of the service, run on the sample clock *)

Example alice_gets_poc_id_1 :
  (post_user_transactions sample_clock int_exact str_exact
     (JObj [("usrname", JStr "alice"); ("creat_usrnbr", JNum 7 0)]) initial).1
  = inr {| TransactionResponse.status := "success";
           TransactionResponse.message :=
             "User transaction received successfully";
           TransactionResponse.poc_id := VInt 1;
           TransactionResponse.user := Some "alice";
           TransactionResponse.received_at := VStr "2025-03-07T09:05:00" |}.
Proof. by vm_compute. Qed.

Example health_on_a_fresh_process :
  (health_check sample_clock initial).1
  = inr {| HealthResponse.status := "healthy";
           HealthResponse.timestamp := "2025-03-07T09:05:00";
           HealthResponse.service := "Rakbank POC Kafka Webhook";
           HealthResponse.total_transactions := 0 |}.
Proof. by vm_compute. Qed.

Example stats_after_five_users :
  (poc_statistics after_five_users).1
  = inr (StatsResponse.Collecting
           {| StatsResponse.total_transactions := 5;
              StatsResponse.unique_users := 2;
              StatsResponse.user_list := [VStr "a"; VStr "b"];
              StatsResponse.first_transaction := VStr "2025-03-07T09:05:00";
              StatsResponse.last_transaction := VStr "2025-03-07T09:05:04";
              StatsResponse.poc_status := "collecting_data" |}).
Proof. by vm_compute. Qed.

(** * Further properties of the handlers *)

(** ** What one single ingest stores and answers *)

(** X1. A single ingest never takes its [except] branch: on every state it
    succeeds, appends exactly one dict, and the [poc_id], [received_at] and
    [user] of its answer are the values that dict holds under ["poc_id"],
    ["received_at"] and ["usrname"]. *)
Theorem single_ingest_answer_matches_record (clock : nat -> datetime)
    (t : UserTransaction) (w : World) :
  exists r d,
    (receive_user_transaction clock t w).1 = inr r /\
    received_transactions (receive_user_transaction clock t w).2
      = (received_transactions w ++ [d])%list /\
    d !! "poc_id" = Some (TransactionResponse.poc_id r) /\
    d !! "received_at" = Some (TransactionResponse.received_at r) /\
    d !! "usrname" = Some (of_str (TransactionResponse.user r)) /\
    dict t ⊆ d.
Proof.
  rewrite receive_user_transaction_run; simpl.
  eexists; eexists. split; [ reflexivity | ]. split; [ reflexivity | ]. simpl.
  split; [ apply stored_poc_id | ].
  split; [ apply stored_received_at | ].
  split; [ | apply dict_subseteq_stored ].
  unfold stored, dict. lookup_through_inserts.
Qed.

(** X2. The dict stored by a single ingest has exactly the five keys of the
    request model plus ["received_at"] and ["poc_id"]; in particular it has
    no ["batch_id"]. *)
Theorem single_ingest_record_keys (clock : nat -> datetime)
    (t : UserTransaction) (w : World) :
  exists d,
    received_transactions (receive_user_transaction clock t w).2
      = (received_transactions w ++ [d])%list /\
    dom d = single_keys /\
    d !! "batch_id" = None.
Proof.
  rewrite receive_user_transaction_run; simpl.
  eexists. split; [ reflexivity | ].
  assert (dom (stored t (clock (ticks w)) (length (received_transactions w)))
          = single_keys) as Hdom.
  { unfold stored, dict, single_keys, field_names.
    rewrite !dom_insert_L, dom_empty_L. simpl. set_solver. }
  split; [ done | ].
  unfold stored, dict. by rewrite !lookup_insert_ne, lookup_empty.
Qed.

(** ** What every request keeps *)

Lemma serve_store (clock : nat -> datetime) (r : request) (w : World) :
  received_transactions (serve clock r w) =
  (received_transactions w ++
   match r with
   | POST_user_transactions t =>
       [stored t (clock (ticks w)) (length (received_transactions w))]
   | POST_user_transactions_batch ts =>
       imap (fun i t =>
               batch_stored t (strftime_batch (clock (ticks w)))
                 (clock (S (ticks w) + i))
                 (length (received_transactions w) + i)) ts
   | _ => []
   end)%list.
Proof.
  destruct r as [ | t | | ts | | ]; simpl;
    rewrite ?root_run, ?get_received_transactions_run, ?health_check_run,
      ?receive_user_transaction_run, ?receive_batch_transactions_run,
      ?pure_poc_statistics; simpl; by rewrite ?app_nil_r.
Qed.

Lemma serve_length (clock : nat -> datetime) (r : request) (w : World) :
  length (received_transactions (serve clock r w))
    = length (received_transactions w) + posted r.
Proof.
  rewrite serve_store, length_app. f_equal.
  destruct r; simpl; try done. by rewrite length_imap.
Qed.

(** X3. No request removes or rewrites a stored record: whatever the request,
    the list before it is a prefix of the list after it, and the list grows
    by the number of records the request carries. *)
Theorem every_request_only_appends (clock : nat -> datetime) (r : request)
    (w : World) :
  received_transactions w `prefix_of` received_transactions (serve clock r w) /\
  length (received_transactions (serve clock r w))
    = length (received_transactions w) + posted r.
Proof.
  split; [ | apply serve_length ].
  rewrite serve_store. by apply prefix_app_r.
Qed.

Lemma serve_all_length (clock : nat -> datetime) (rs : list request)
    (w : World) :
  length (received_transactions (serve_all clock rs w))
    = length (received_transactions w) + sum_list (map posted rs).
Proof.
  revert w. induction rs as [|r rs IH]; intros w; simpl.
  - lia.
  - unfold serve_all in *; simpl. rewrite IH, serve_length. lia.
Qed.

(** X4. After any run of requests, of any kinds and in any order, the list
    holds as many records as the requests of the run carried, on top of the
    ones it held before. *)
Theorem list_length_counts_posted_records (clock : nat -> datetime)
    (rs : list request) (w : World) :
  length (received_transactions (serve_all clock rs w))
    = length (received_transactions w) + sum_list (map posted rs).
Proof. apply serve_all_length. Qed.

(** ** Numbering and logging over the life of the process *)

Lemma batch_stored_poc_id (t : UserTransaction) (b : string) (at_ : datetime)
    (n : nat) :
  batch_stored t b at_ n !! "poc_id" = Some (VInt (Z.of_nat n + 1)).
Proof. unfold batch_stored. apply lookup_insert_eq. Qed.

Lemma serve_all_reachable (clock : nat -> datetime) (rs : list request)
    (w : World) :
  reachable clock w -> reachable clock (serve_all clock rs w).
Proof.
  revert w. induction rs as [|r rs IH]; intros w Hw; [ done | ].
  apply IH. by constructor.
Qed.

Lemma after_mixed_run_reachable : reachable sample_clock after_mixed_run.
Proof. apply serve_all_reachable. constructor. Qed.

Lemma serve_keeps_numbering (clock : nat -> datetime) (r : request)
    (w : World) :
  (forall i d, received_transactions w !! i = Some d ->
               d !! "poc_id" = Some (VInt (Z.of_nat i + 1))) ->
  forall i d, received_transactions (serve clock r w) !! i = Some d ->
              d !! "poc_id" = Some (VInt (Z.of_nat i + 1)).
Proof.
  intros Hw i d. rewrite serve_store, lookup_app_Some.
  intros [Hold | [Hlen Hnew]]; [ by apply Hw | ].
  remember (i - length (received_transactions w)) as k eqn:Hk.
  assert (i = length (received_transactions w) + k) as -> by lia.
  clear Hk Hlen.
  destruct r as [ | t | | ts | | ]; try done.
  - destruct k as [|k]; [ | done ].
    injection Hnew as <-. rewrite Nat.add_0_r. apply stored_poc_id.
  - rewrite list_lookup_imap in Hnew.
    destruct (ts !! k) as [t|]; simpl in Hnew; [ | done ].
    injection Hnew as <-. apply batch_stored_poc_id.
Qed.

Lemma reachable_numbering (clock : nat -> datetime) (w : World) :
  reachable clock w ->
  forall i d, received_transactions w !! i = Some d ->
              d !! "poc_id" = Some (VInt (Z.of_nat i + 1)).
Proof.
  induction 1 as [ | w r _ IH ]; [ done | ].
  by apply serve_keeps_numbering.
Qed.

(** X5. However single ingests, batches and reads are mixed, the record at
    position [i] of the list (counting from 0) carries [poc_id = i + 1]. *)
Theorem poc_id_is_position_plus_one (clock : nat -> datetime) (w : World)
    (i : nat) (d : gmap string val) :
  reachable clock w ->
  received_transactions w !! i = Some d ->
  d !! "poc_id" = Some (VInt (Z.of_nat i + 1)).
Proof. intros Hw. apply (reachable_numbering clock w Hw). Qed.

(** X6. In the list of a running process no two records share a [poc_id]. *)
Theorem poc_ids_are_distinct (clock : nat -> datetime) (w : World)
    (i j : nat) (di dj : gmap string val) :
  reachable clock w ->
  received_transactions w !! i = Some di ->
  received_transactions w !! j = Some dj ->
  di !! "poc_id" = dj !! "poc_id" ->
  i = j.
Proof.
  intros Hw Hi Hj Heq.
  rewrite (reachable_numbering clock w Hw i di Hi) in Heq.
  rewrite (reachable_numbering clock w Hw j dj Hj) in Heq.
  injection Heq. lia.
Qed.

Lemma after_mixed_run_length :
  length (received_transactions after_mixed_run) = 4.
Proof. unfold after_mixed_run. by rewrite serve_all_length. Qed.

Lemma after_mixed_run_lookup (i : nat) :
  i < 4 -> exists d, received_transactions after_mixed_run !! i = Some d.
Proof.
  intros Hi. apply lookup_lt_is_Some_2. by rewrite after_mixed_run_length.
Qed.

Lemma poc_id_is_position_plus_one_witness :
  reachable sample_clock after_mixed_run /\
  exists d,
    received_transactions after_mixed_run !! 2 = Some d /\
    d !! "poc_id" = Some (VInt (Z.of_nat 2 + 1)).
Proof.
  split; [ apply after_mixed_run_reachable | ].
  destruct (after_mixed_run_lookup 2) as [d Hd]; [ lia | ].
  exists d. split; [ exact Hd | ].
  exact (poc_id_is_position_plus_one sample_clock after_mixed_run 2 d
           after_mixed_run_reachable Hd).
Defined.

Lemma poc_ids_are_distinct_witness :
  reachable sample_clock after_mixed_run /\
  exists d,
    received_transactions after_mixed_run !! 1 = Some d /\
    d !! "poc_id" = d !! "poc_id" /\
    1 = 1.
Proof.
  split; [ apply after_mixed_run_reachable | ].
  destruct (after_mixed_run_lookup 1) as [d Hd]; [ lia | ].
  exists d. split; [ exact Hd | ]. split; [ reflexivity | ].
  exact (poc_ids_are_distinct sample_clock after_mixed_run 1 1 d d
           after_mixed_run_reachable Hd Hd eq_refl).
Defined.

Lemma serve_logged (clock : nat -> datetime) (r : request) (w : World) :
  logged (serve clock r w) =
  (logged w ++
   match r with
   | POST_user_transactions t => [(INFO, ingest_line t)]
   | POST_user_transactions_batch ts =>
       map (fun t => (INFO, batch_line t)) ts
   | _ => []
   end)%list.
Proof.
  destruct r as [ | t | | ts | | ]; simpl;
    rewrite ?root_run, ?get_received_transactions_run, ?health_check_run,
      ?receive_user_transaction_run, ?receive_batch_transactions_run,
      ?pure_poc_statistics; simpl; by rewrite ?app_nil_r.
Qed.

(** X7. A running process never logs an error: every line it has handed to
    the logger is an INFO line, and there is exactly one line per stored
    record; the read routes log nothing. *)
Theorem one_info_line_per_record (clock : nat -> datetime) (w : World) :
  reachable clock w ->
  Forall (fun entry => entry.1 = INFO) (logged w) /\
  length (logged w) = length (received_transactions w).
Proof.
  induction 1 as [ | w r _ [IHinfo IHlen] ]; [ by split | ].
  rewrite serve_logged, serve_length, length_app, IHlen.
  split.
  - apply Forall_app. split; [ done | ].
    destruct r as [ | t | | ts | | ]; try by constructor.
    apply Forall_forall. intros e He.
    apply list_elem_of_fmap in He as (t & -> & _). done.
  - f_equal. destruct r; simpl; try done. by rewrite length_map.
Qed.

Lemma one_info_line_per_record_witness :
  reachable sample_clock after_mixed_run /\
  Forall (fun entry => entry.1 = INFO) (logged after_mixed_run) /\
  length (logged after_mixed_run)
    = length (received_transactions after_mixed_run).
Proof.
  split; [ apply after_mixed_run_reachable | ].
  apply (one_info_line_per_record sample_clock after_mixed_run).
  apply after_mixed_run_reachable.
Defined.

(** ** More on the batch route *)

Lemma dict_lookup_batch_id (t : UserTransaction) : dict t !! "batch_id" = None.
Proof. unfold dict. by rewrite !lookup_insert_ne, lookup_empty. Qed.

Lemma dict_subseteq_batch_stored (t : UserTransaction) (b : string)
    (at_ : datetime) (n : nat) :
  dict t ⊆ batch_stored t b at_ n.
Proof.
  unfold batch_stored.
  etrans; [ apply (insert_subseteq _ "received_at"),
              dict_lookup_received_at | ].
  etrans; [ apply (insert_subseteq _ "batch_id") | ].
  { rewrite lookup_insert_ne by done. apply dict_lookup_batch_id. }
  apply insert_subseteq.
  rewrite !lookup_insert_ne by done. apply dict_lookup_poc_id.
Qed.

Lemma batch_stored_received_at (t : UserTransaction) (b : string)
    (at_ : datetime) (n : nat) :
  batch_stored t b at_ n !! "received_at" = Some (VStr (isoformat at_)).
Proof. unfold batch_stored. lookup_through_inserts. Qed.

Lemma batch_stored_dom (t : UserTransaction) (b : string) (at_ : datetime)
    (n : nat) :
  dom (batch_stored t b at_ n) = batch_keys.
Proof.
  unfold batch_stored, dict, batch_keys, field_names.
  rewrite !dom_insert_L, dom_empty_L. simpl. set_solver.
Qed.

(** X8. A batch with no records still succeeds: the list and the log stay as
    they were, [total_received] is the length of the list, and the message
    counts 0 records. *)
Theorem empty_batch_changes_nothing (clock : nat -> datetime) (w : World) :
  (receive_batch_transactions clock [] w).1 =
    inr {| BatchResponse.status := "success";
           BatchResponse.message :=
             "Batch of 0 transactions received successfully";
           BatchResponse.batch_id := strftime_batch (clock (ticks w));
           BatchResponse.total_received :=
             length (received_transactions w) |} /\
  received_transactions (receive_batch_transactions clock [] w).2
    = received_transactions w /\
  logged (receive_batch_transactions clock [] w).2 = logged w.
Proof.
  rewrite receive_batch_transactions_run; simpl.
  by rewrite !app_nil_r, Nat.add_0_r.
Qed.

(** X9. A batch stores its records in input order behind the records already
    there: the record of input position [i] lands at position [len + i],
    keeps the fields of the request, carries [poc_id = len + i + 1], and its
    [received_at] is its own clock reading, the [i+1]-th after the one that
    gave the [batch_id]. *)
Theorem batch_stores_in_input_order (clock : nat -> datetime)
    (ts : list UserTransaction) (w : World) (i : nat) (t : UserTransaction) :
  ts !! i = Some t ->
  exists d,
    received_transactions (receive_batch_transactions clock ts w).2
      !! (length (received_transactions w) + i) = Some d /\
    dict t ⊆ d /\
    d !! "poc_id"
      = Some (VInt (Z.of_nat (length (received_transactions w) + i) + 1)) /\
    d !! "received_at" = Some (VStr (isoformat (clock (S (ticks w) + i)))).
Proof.
  intros Hi. rewrite receive_batch_transactions_run; simpl.
  eexists. split.
  - rewrite lookup_app_r by lia.
    replace (length (received_transactions w) + i
             - length (received_transactions w)) with i by lia.
    rewrite list_lookup_imap, Hi. reflexivity.
  - split; [ apply dict_subseteq_batch_stored | ].
    split; [ apply batch_stored_poc_id | apply batch_stored_received_at ].
Qed.

Lemma batch_stores_in_input_order_witness :
  [sample_tx (Some "b"); sample_tx None] !! 1 = Some (sample_tx None) /\
  exists d,
    received_transactions
      (receive_batch_transactions sample_clock
         [sample_tx (Some "b"); sample_tx None] after_five_users).2
      !! (length (received_transactions after_five_users) + 1) = Some d /\
    dict (sample_tx None) ⊆ d /\
    d !! "poc_id"
      = Some (VInt (Z.of_nat (length (received_transactions after_five_users)
                              + 1) + 1)) /\
    d !! "received_at"
      = Some (VStr (isoformat (sample_clock (S (ticks after_five_users) + 1)))).
Proof.
  split; [ reflexivity | ].
  apply (batch_stores_in_input_order sample_clock
           [sample_tx (Some "b"); sample_tx None] after_five_users 1
           (sample_tx None)).
  reflexivity.
Defined.

(** X10. Every dict a batch appends has exactly the five keys of the request
    model plus ["received_at"], ["batch_id"] and ["poc_id"]. *)
Theorem batch_record_keys (clock : nat -> datetime)
    (ts : list UserTransaction) (w : World) :
  exists new,
    received_transactions (receive_batch_transactions clock ts w).2
      = (received_transactions w ++ new)%list /\
    length new = length ts /\
    Forall (fun d => dom d = batch_keys) new.
Proof.
  rewrite receive_batch_transactions_run; simpl.
  eexists. split; [ reflexivity | ].
  split; [ by rewrite length_imap | ].
  apply Forall_imap. intros. apply batch_stored_dom.
Qed.

(** ** Statistics and listing on a running process *)

Lemma length_elements_list_to_set (l : list val) :
  length (elements (list_to_set l : gset val)) <= length l.
Proof.
  apply submseteq_length, NoDup_submseteq; [ apply NoDup_elements | ].
  intros x. by rewrite elem_of_elements, elem_of_list_to_set.
Qed.

Lemma length_usernames (rs : list (gmap string val)) :
  length (usernames rs) <= length rs.
Proof.
  unfold usernames. etrans; [ apply length_filter | ]. by rewrite length_map.
Qed.

(** X11. On a running process the statistics route never raises.  It answers
    the waiting body only for an empty list; otherwise [total_transactions]
    is the length of the list and [unique_users] is at most that. *)
Theorem stats_never_fails_when_running (clock : nat -> datetime) (w : World) :
  reachable clock w ->
  exists r,
    (poc_statistics w).1 = inr r /\
    match r with
    | StatsResponse.Waiting _ => received_transactions w = []
    | StatsResponse.Collecting c =>
        received_transactions w <> [] /\
        StatsResponse.total_transactions c = length (received_transactions w) /\
        StatsResponse.unique_users c <= StatsResponse.total_transactions c
    end.
Proof.
  intros Hw. apply reachable_records in Hw.
  destruct (decide (received_transactions w = [])) as [Hnil | Hne].
  - eexists. split; [ unfold poc_statistics, bind, get_received; simpl;
                      rewrite Hnil; reflexivity | done ].
  - destruct (records_first_and_last _ Hw Hne)
      as (d0 & dn & s0 & sn & Hhead & Hlast & H0 & Hn).
    rewrite (poc_statistics_run w d0 dn _ _ Hhead Hlast H0 Hn); simpl.
    eexists. split; [ reflexivity | ]. simpl.
    split; [ done | ]. split; [ done | ].
    etrans; [ apply length_elements_list_to_set | apply length_usernames ].
Qed.

Lemma stats_never_fails_when_running_witness :
  reachable sample_clock after_mixed_run /\
  exists r,
    (poc_statistics after_mixed_run).1 = inr r /\
    match r with
    | StatsResponse.Waiting _ => received_transactions after_mixed_run = []
    | StatsResponse.Collecting c =>
        received_transactions after_mixed_run <> [] /\
        StatsResponse.total_transactions c
          = length (received_transactions after_mixed_run) /\
        StatsResponse.unique_users c <= StatsResponse.total_transactions c
    end.
Proof.
  split; [ apply after_mixed_run_reachable | ].
  apply (stats_never_fails_when_running sample_clock after_mixed_run).
  apply after_mixed_run_reachable.
Defined.

Lemma last_drop {A} (l : list A) (n : nat) :
  n < length l -> last (drop n l) = last l.
Proof.
  intros Hn. rewrite !last_lookup, lookup_drop, length_drop.
  f_equal. lia.
Qed.

(** X12. Listing right after a single ingest shows it: [total_count] is the
    [poc_id] just returned, and the last element of [last_10_transactions] is
    the record of that call, with its fields and that [poc_id]. *)
Theorem list_recent_shows_the_new_record (clock : nat -> datetime)
    (t : UserTransaction) (w : World) :
  exists r l d,
    (receive_user_transaction clock t w).1 = inr r /\
    (get_received_transactions clock (receive_user_transaction clock t w).2).1
      = inr l /\
    TransactionResponse.poc_id r = VInt (Z.of_nat (ListResponse.total_count l)) /\
    last (ListResponse.last_10_transactions l) = Some d /\
    d !! "poc_id" = Some (TransactionResponse.poc_id r) /\
    dict t ⊆ d.
Proof.
  rewrite receive_user_transaction_run, get_received_transactions_run; simpl.
  eexists; eexists; eexists.
  split; [ reflexivity | ]. split; [ reflexivity | ]. simpl.
  rewrite bool_decide_eq_false_2 by (by destruct (received_transactions w)).
  rewrite slice_from_last_10, last_drop, last_snoc
    by (rewrite length_app; simpl; lia).
  split; [ f_equal; rewrite length_app; simpl; lia | ].
  split; [ reflexivity | ].
  split; [ apply stored_poc_id | apply dict_subseteq_stored ].
Qed.

(** X13. Statistics right after a single ingest into a list of transaction
    records: the answer is the normal body, never the waiting one; its
    [last_transaction] is the [received_at] just returned and its
    [total_transactions] is one more than before. *)
Theorem stats_after_ingest_show_it (clock : nat -> datetime)
    (t : UserTransaction) (w : World) :
  Forall TransactionRecord (received_transactions w) ->
  exists r c,
    (receive_user_transaction clock t w).1 = inr r /\
    (poc_statistics (receive_user_transaction clock t w).2).1
      = inr (StatsResponse.Collecting c) /\
    StatsResponse.last_transaction c = TransactionResponse.received_at r /\
    StatsResponse.total_transactions c
      = S (length (received_transactions w)).
Proof.
  intros Hw.
  pose proof (serve_keeps_records clock (POST_user_transactions t) w Hw) as Hw1.
  simpl in Hw1. revert Hw1.
  rewrite receive_user_transaction_run; simpl. intros Hw1.
  set (d := stored t (clock (ticks w)) (length (received_transactions w))) in *.
  set (w1 := {| received_transactions := received_transactions w ++ [d];
                ticks := S (ticks w);
                logged := logged w ++ [(INFO, ingest_line t)] |}).
  destruct (records_first_and_last (received_transactions w ++ [d]) Hw1)
    as (d0 & dn & s0 & sn & Hhead & Hlast & H0 & Hn).
  { by destruct (received_transactions w). }
  rewrite last_snoc in Hlast. injection Hlast as <-.
  rewrite (poc_statistics_run w1 d0 d (VStr s0)
             (VStr (isoformat (clock (ticks w)))));
    [ | done | apply last_snoc | done | apply stored_received_at ].
  eexists; eexists. split; [ reflexivity | ]. split; [ reflexivity | ]. simpl.
  split; [ done | ]. rewrite length_app; simpl; lia.
Qed.

Lemma stats_after_ingest_show_it_witness :
  Forall TransactionRecord (received_transactions after_five_users) /\
  exists r c,
    (receive_user_transaction sample_clock (sample_tx (Some "c"))
       after_five_users).1 = inr r /\
    (poc_statistics
       (receive_user_transaction sample_clock (sample_tx (Some "c"))
          after_five_users).2).1
      = inr (StatsResponse.Collecting c) /\
    StatsResponse.last_transaction c = TransactionResponse.received_at r /\
    StatsResponse.total_transactions c
      = S (length (received_transactions after_five_users)).
Proof.
  split; [ apply after_five_users_records | ].
  apply (stats_after_ingest_show_it sample_clock (sample_tx (Some "c"))
           after_five_users).
  apply after_five_users_records.
Defined.

(** ** More on the request boundary *)

Lemma member_skip (ms1 ms2 : list (string * json)) (k f : string) (j : json) :
  k <> f -> member (ms1 ++ (k, j) :: ms2) f = member (ms1 ++ ms2) f.
Proof.
  intros Hk. induction ms1 as [|[k1 j1] ms1 IH]; simpl.
  - apply String.eqb_neq in Hk. rewrite Hk. by destruct (member ms2 f).
  - by rewrite IH.
Qed.

(** X14. A member of the body whose name is not a field of the request model
    (the record key, say) is ignored: the route answers the same and leaves
    the same state as for the body without that member. *)
Theorem unknown_member_is_ignored (clock : nat -> datetime)
    (int_validator : json -> option Z) (str_validator : json -> option string)
    (ms1 ms2 : list (string * json)) (k : string) (j : json) (w : World) :
  k ∉ field_names ->
  post_user_transactions clock int_validator str_validator
    (JObj (ms1 ++ (k, j) :: ms2)) w
  = post_user_transactions clock int_validator str_validator
      (JObj (ms1 ++ ms2)) w.
Proof.
  intros Hk. unfold field_names in Hk.
  rewrite !not_elem_of_cons in Hk.
  destruct Hk as (H1 & H2 & H3 & H4 & H5 & _).
  unfold post_user_transactions, validate.
  by rewrite !member_skip.
Qed.

Lemma unknown_member_is_ignored_witness :
("key" ∉ field_names) /\
  post_user_transactions sample_clock int_exact str_exact
    (JObj ([("usrname", JStr "alice")]
           ++ (("key", JNum 42 0) :: [("creat_usrnbr", JNum 7 0)]))) initial
  = post_user_transactions sample_clock int_exact str_exact
      (JObj ([("usrname", JStr "alice")] ++ [("creat_usrnbr", JNum 7 0)]))
      initial.
Proof.
  assert ("key" ∉ field_names) as Hkey.
  { unfold field_names. rewrite !not_elem_of_cons. repeat split; try done.
    apply not_elem_of_nil. }
  split; [ exact Hkey | ].
  apply (unknown_member_is_ignored sample_clock int_exact str_exact
           [("usrname", JStr "alice")] [("creat_usrnbr", JNum 7 0)]
           "key" (JNum 42 0) initial Hkey).
Defined.

Lemma validate_usrname (int_validator : json -> option Z)
    (str_validator : json -> option string) (ms : list (string * json))
    (t : UserTransaction) :
  validate int_validator str_validator (JObj ms) = Some t ->
  optional str_validator (member ms "usrname") = Some (usrname t).
Proof.
  unfold validate. intros H.
  destruct (optional int_validator (member ms "authorizer_usrnbr"));
    simpl in H; [ | done ].
  destruct (optional int_validator (member ms "creat_usrnbr"));
    simpl in H; [ | done ].
  destruct (optional str_validator (member ms "creat_time"));
    simpl in H; [ | done ].
  destruct (optional str_validator (member ms "data")); simpl in H; [ | done ].
  destruct (optional str_validator (member ms "usrname"));
    simpl in H; [ | done ].
  by injection H as <-.
Qed.

(** X16. From the body to the list: when a body validates and its
    ["usrname"] member is a value that the [str] coercion turns into [s], the
    answer echoes [s] as [user] and the appended dict holds [s] under
    ["usrname"]. *)
Theorem usrname_goes_from_body_to_list (clock : nat -> datetime)
    (int_validator : json -> option Z) (str_validator : json -> option string)
    (ms : list (string * json)) (j : json) (s : string) (w : World) :
  is_Some (validate int_validator str_validator (JObj ms)) ->
  member ms "usrname" = Some j ->
  j <> JNull ->
  str_validator j = Some s ->
  exists r d,
    (post_user_transactions clock int_validator str_validator (JObj ms) w).1
      = inr r /\
    TransactionResponse.user r = Some s /\
    received_transactions
      (post_user_transactions clock int_validator str_validator (JObj ms) w).2
      = (received_transactions w ++ [d])%list /\
    d !! "usrname" = Some (VStr s).
Proof.
  intros [t Ht] Hm Hj Hs.
  pose proof (validate_usrname _ _ _ _ Ht) as Hu.
  rewrite Hm in Hu.
  assert (usrname t = Some s) as Hut.
  { destruct j; try done; simpl in Hu; rewrite Hs in Hu; simpl in Hu;
      by injection Hu. }
  unfold post_user_transactions. rewrite Ht.
  rewrite receive_user_transaction_run; simpl.
  eexists; eexists. split; [ reflexivity | ]. simpl.
  split; [ done | ]. split; [ reflexivity | ].
  unfold stored, dict. rewrite Hut. lookup_through_inserts.
Qed.

Lemma usrname_goes_from_body_to_list_witness :
  let ms := [("usrname", JStr "alice"); ("creat_usrnbr", JNum 7 0)] in
  is_Some (validate int_exact str_exact (JObj ms)) /\
  member ms "usrname" = Some (JStr "alice") /\
  JStr "alice" <> JNull /\
  str_exact (JStr "alice") = Some "alice" /\
  exists r d,
    (post_user_transactions sample_clock int_exact str_exact (JObj ms)
       initial).1 = inr r /\
    TransactionResponse.user r = Some "alice" /\
    received_transactions
      (post_user_transactions sample_clock int_exact str_exact (JObj ms)
         initial).2
      = (received_transactions initial ++ [d])%list /\
    d !! "usrname" = Some (VStr "alice").
Proof.
  assert (is_Some (validate int_exact str_exact
            (JObj [("usrname", JStr "alice"); ("creat_usrnbr", JNum 7 0)])))
    as Hvalid by (eexists; reflexivity).
  split; [ exact Hvalid | ].
  split; [ reflexivity | ]. split; [ discriminate | ].
  split; [ reflexivity | ].
  apply (usrname_goes_from_body_to_list sample_clock int_exact str_exact
           [("usrname", JStr "alice"); ("creat_usrnbr", JNum 7 0)]
           (JStr "alice") "alice" initial Hvalid);
    [ reflexivity | discriminate | reflexivity ].
Defined.

(** X17. A body in which ["usrname"] is absent or [null] and that validates
    is stored with Python's [None] under ["usrname"], and the answer's [user]
    is [None]. *)
Theorem missing_usrname_is_stored_as_None (clock : nat -> datetime)
    (int_validator : json -> option Z) (str_validator : json -> option string)
    (ms : list (string * json)) (w : World) :
  is_Some (validate int_validator str_validator (JObj ms)) ->
  member ms "usrname" = None \/ member ms "usrname" = Some JNull ->
  exists r d,
    (post_user_transactions clock int_validator str_validator (JObj ms) w).1
      = inr r /\
    TransactionResponse.user r = None /\
    received_transactions
      (post_user_transactions clock int_validator str_validator (JObj ms) w).2
      = (received_transactions w ++ [d])%list /\
    d !! "usrname" = Some VNone.
Proof.
  intros [t Ht] Hm.
  pose proof (validate_usrname _ _ _ _ Ht) as Hu.
  assert (usrname t = None) as Hut.
  { destruct Hm as [Hm | Hm]; rewrite Hm in Hu; simpl in Hu; by injection Hu. }
  unfold post_user_transactions. rewrite Ht.
  rewrite receive_user_transaction_run; simpl.
  eexists; eexists. split; [ reflexivity | ]. simpl.
  split; [ done | ]. split; [ reflexivity | ].
  unfold stored, dict. rewrite Hut. lookup_through_inserts.
Qed.

Lemma missing_usrname_is_stored_as_None_witness :
  let ms := [("data", JStr "x"); ("usrname", JNull)] in
  is_Some (validate int_exact str_exact (JObj ms)) /\
  (member ms "usrname" = None \/ member ms "usrname" = Some JNull) /\
  exists r d,
    (post_user_transactions sample_clock int_exact str_exact (JObj ms)
       initial).1 = inr r /\
    TransactionResponse.user r = None /\
    received_transactions
      (post_user_transactions sample_clock int_exact str_exact (JObj ms)
         initial).2
      = (received_transactions initial ++ [d])%list /\
    d !! "usrname" = Some VNone.
Proof.
  assert (is_Some (validate int_exact str_exact
            (JObj [("data", JStr "x"); ("usrname", JNull)])))
    as Hvalid by (eexists; reflexivity).
  split; [ exact Hvalid | ].
  split; [ right; reflexivity | ].
  apply (missing_usrname_is_stored_as_None sample_clock int_exact str_exact
           [("data", JStr "x"); ("usrname", JNull)] initial Hvalid).
  right; reflexivity.
Defined.

(** ** The rendering of [received_at] *)

Lemma isoformat_shape (d : datetime) :
  wall_clock d -> is_isoformat (isoformat d) = true.
Proof.
  intros (Hy & Hm & Hd & Hh & Hmi & Hs & _).
  pose proof (zpad_4_digits (year d) ltac:(lia)) as Y.
  pose proof (zpad_2_digits (month d) ltac:(lia)) as Mo.
  pose proof (zpad_2_digits (day d) ltac:(lia)) as D.
  pose proof (zpad_2_digits (hour d) ltac:(lia)) as H.
  pose proof (zpad_2_digits (minute d) ltac:(lia)) as Mi.
  pose proof (zpad_2_digits (second d) ltac:(lia)) as S.
  unfold isoformat.
  destruct (zpad 4 (year d)) as [|y1 [|y2 [|y3 [|y4 [|]]]]]; try discriminate.
  destruct (zpad 2 (month d)) as [|m1 [|m2 [|]]]; try discriminate.
  destruct (zpad 2 (day d)) as [|d1 [|d2 [|]]]; try discriminate.
  destruct (zpad 2 (hour d)) as [|h1 [|h2 [|]]]; try discriminate.
  destruct (zpad 2 (minute d)) as [|n1 [|n2 [|]]]; try discriminate.
  destruct (zpad 2 (second d)) as [|s1 [|s2 [|]]]; try discriminate.
  simpl in *.
  repeat match goal with
         | H : _ && _ = true |- _ => apply andb_prop in H; destruct H
         end.
  unfold is_isoformat; simpl.
  repeat match goal with
         | H : is_digit _ = true |- _ => rewrite H; clear H
         end.
  by destruct (microsecond d =? 0)%N.
Qed.

Lemma isoformat_length_whole_second (d : datetime) :
  wall_clock d -> microsecond d = 0%N -> String.length (isoformat d) = 19.
Proof.
  intros (Hy & Hm & Hd & Hh & Hmi & Hs & _) Hus.
  pose proof (zpad_4_digits (year d) ltac:(lia)) as Y.
  pose proof (zpad_2_digits (month d) ltac:(lia)) as Mo.
  pose proof (zpad_2_digits (day d) ltac:(lia)) as D.
  pose proof (zpad_2_digits (hour d) ltac:(lia)) as H.
  pose proof (zpad_2_digits (minute d) ltac:(lia)) as Mi.
  pose proof (zpad_2_digits (second d) ltac:(lia)) as S.
  unfold isoformat. rewrite Hus.
  destruct (zpad 4 (year d)) as [|y1 [|y2 [|y3 [|y4 [|]]]]]; try discriminate.
  destruct (zpad 2 (month d)) as [|m1 [|m2 [|]]]; try discriminate.
  destruct (zpad 2 (day d)) as [|d1 [|d2 [|]]]; try discriminate.
  destruct (zpad 2 (hour d)) as [|h1 [|h2 [|]]]; try discriminate.
  destruct (zpad 2 (minute d)) as [|n1 [|n2 [|]]]; try discriminate.
  destruct (zpad 2 (second d)) as [|s1 [|s2 [|]]]; try discriminate.
  reflexivity.
Qed.

(** X18. When the clock reading of a single ingest is a wall-clock time, the
    [received_at] it stores and returns is a string of the shape
    [YYYY-MM-DDTHH:MM:SS], followed by a fraction only if the reading has
    microseconds; for a whole second it is exactly those 19 characters. *)
Theorem received_at_is_iso_8601 (clock : nat -> datetime)
    (t : UserTransaction) (w : World) :
  wall_clock (clock (ticks w)) ->
  exists r s,
    (receive_user_transaction clock t w).1 = inr r /\
    TransactionResponse.received_at r = VStr s /\
    is_isoformat s = true /\
    (microsecond (clock (ticks w)) = 0%N -> String.length s = 19).
Proof.
  intros Hclock. rewrite receive_user_transaction_run; simpl.
  eexists; eexists. split; [ reflexivity | ]. simpl.
  split; [ reflexivity | ].
  split; [ by apply isoformat_shape | by apply isoformat_length_whole_second ].
Qed.

Lemma received_at_is_iso_8601_witness :
  wall_clock (sample_clock (ticks initial)) /\
  microsecond (sample_clock (ticks initial)) = 0%N /\
  exists r s,
    (receive_user_transaction sample_clock (sample_tx (Some "a")) initial).1
      = inr r /\
    TransactionResponse.received_at r = VStr s /\
    is_isoformat s = true /\
    String.length s = 19.
Proof.
  assert (wall_clock (sample_clock (ticks initial))) as Hclock
    by (repeat split; by vm_compute).
  split; [ exact Hclock | ]. split; [ reflexivity | ].
  destruct (received_at_is_iso_8601 sample_clock (sample_tx (Some "a"))
              initial Hclock) as (r & s & Hr & Hs & Hshape & Hlen).
  exists r, s.
  split; [ exact Hr | ]. split; [ exact Hs | ].
  split; [ exact Hshape | exact (Hlen eq_refl) ].
Defined.

(** ** The counters of the read routes *)

(** X19. After any run of requests on a fresh process, the three counters a
    client can read (root's [total_received], the health check's
    [total_transactions] and the listing's [total_count]) all equal the
    number of records the requests of the run carried. *)
Theorem counters_agree_with_posted_records (clock : nat -> datetime)
    (rs : list request) :
  let w := serve_all clock rs initial in
  exists a h l,
    (root clock w).1 = inr a /\
    (health_check clock w).1 = inr h /\
    (get_received_transactions clock w).1 = inr l /\
    RootResponse.total_received a = sum_list (map posted rs) /\
    HealthResponse.total_transactions h = sum_list (map posted rs) /\
    ListResponse.total_count l = sum_list (map posted rs).
Proof.
  intros w. subst w.
  rewrite root_run, health_check_run, get_received_transactions_run; simpl.
  eexists; eexists; eexists.
  split; [ reflexivity | ]. split; [ reflexivity | ].
  split; [ reflexivity | ]. simpl.
  by rewrite serve_all_length.
Qed.

(** ** The two ingest routes store the same data *)

Lemma batch_stored_without_batch_id (t : UserTransaction) (b : string)
    (at_ : datetime) (n : nat) :
  delete "batch_id" (batch_stored t b at_ n) = stored t at_ n.
Proof.
  unfold batch_stored, stored.
  rewrite delete_insert_ne by done.
  rewrite delete_insert_eq.
  rewrite delete_insert_ne by done.
  by rewrite (delete_id _ "batch_id") by apply dict_lookup_batch_id.
Qed.

(** X20. The batch route stores what the single route stores: without its
    ["batch_id"], the dict a batch appends for the record at input position
    [i] is the dict that a single ingest of the same record appends when it
    runs on a list of the same length at the same clock reading. *)
Theorem batch_record_is_single_record_plus_batch_id (clock : nat -> datetime)
    (ts : list UserTransaction) (w w' : World) (i : nat) (t : UserTransaction) :
  ts !! i = Some t ->
  length (received_transactions w')
    = length (received_transactions w) + i ->
  ticks w' = S (ticks w) + i ->
  exists d,
    received_transactions (receive_batch_transactions clock ts w).2
      !! (length (received_transactions w) + i) = Some d /\
    received_transactions (receive_user_transaction clock t w').2
      = (received_transactions w' ++ [delete "batch_id" d])%list.
Proof.
  intros Hi Hlen Hticks.
  rewrite receive_batch_transactions_run, receive_user_transaction_run; simpl.
  eexists. split.
  - rewrite lookup_app_r by lia.
    replace (length (received_transactions w) + i
             - length (received_transactions w)) with i by lia.
    rewrite list_lookup_imap, Hi. reflexivity.
  - by rewrite batch_stored_without_batch_id, Hlen, Hticks.
Qed.

Lemma batch_record_is_single_record_plus_batch_id_witness :
  let ts := [sample_tx (Some "b"); sample_tx None] in
  let w' := {| received_transactions := received_transactions initial;
               ticks := 1; logged := [] |} in
  ts !! 0 = Some (sample_tx (Some "b")) /\
  length (received_transactions w')
    = length (received_transactions initial) + 0 /\
  ticks w' = S (ticks initial) + 0 /\
  exists d,
    received_transactions (receive_batch_transactions sample_clock ts initial).2
      !! (length (received_transactions initial) + 0) = Some d /\
    received_transactions
      (receive_user_transaction sample_clock (sample_tx (Some "b")) w').2
      = (received_transactions w' ++ [delete "batch_id" d])%list.
Proof.
  split; [ reflexivity | ]. split; [ reflexivity | ]. split; [ reflexivity | ].
  apply (batch_record_is_single_record_plus_batch_id sample_clock
           [sample_tx (Some "b"); sample_tx None] initial
           {| received_transactions := received_transactions initial;
              ticks := 1; logged := [] |} 0 (sample_tx (Some "b")));
    reflexivity.
Defined.
